(** * pythonbible-parser: the OSIS passage extraction engine

    A shallow embedding of [pythonbible_parser/osis/parser.py] and
    [pythonbible_parser/osis/constants.py], and the properties of the
    traversal that the specification states about them.

    - Python [str] values are sequences of Unicode code points: [list N].
    - Python exceptions are the [Raise] branch of [result].
    - An [xml.etree.ElementTree.Element] is a rose tree with a tag, an
      attribute dictionary, optional text and tail, and its children.
    - The [lru_cache] decorators memoise functions of their arguments
      and are left out: the embedding describes a call made on empty
      caches.  (The list that [_get_paragraphs] extends in place is the
      one the cache of [_get_paragraph_from_element] holds; a later call
      that hits that entry sees the extended list.)
    - Python's recursion limit is not modelled. *)

From Stdlib Require Import Ascii String.
From Stdlib Require Import List ZArith NArith Bool Lia.
From Stdlib Require Import Sorting.Sorted Sorting.Permutation.
From Stdlib Require Import DecimalString.
Import ListNotations.

Open Scope Z_scope.
Open Scope list_scope.

(** ** Python strings *)

Module Str.

Definition str := list N.

(** [u "abc"] is the Python literal ["abc"] (ASCII literals only). *)
Definition u (s : string) : str := map N_of_ascii (list_ascii_of_string s).

Fixpoint eqb (a b : str) : bool :=
  match a, b with
  | [], [] => true
  | x :: a', y :: b' => N.eqb x y && eqb a' b'
  | _, _ => false
  end.

(** [s.startswith(p)] *)
Fixpoint startswith (p s : str) : bool :=
  match p, s with
  | [], _ => true
  | x :: p', y :: s' => N.eqb x y && startswith p' s'
  | _ :: _, [] => false
  end.

(** [s.endswith(p)] *)
Definition endswith (p s : str) : bool := startswith (rev p) (rev s).

(** [s.index(c)] for a one-character [c]: the first position, or
    [None] where Python raises [ValueError]. *)
Fixpoint index (c : N) (s : str) : option nat :=
  match s with
  | [] => None
  | x :: s' => if N.eqb x c then Some O
               else match index c s' with
                    | Some i => Some (S i)
                    | None => None
                    end
  end.

(** [s[i:j]] for non-negative [i], [j]. *)
Definition slice (i j : nat) (s : str) : str := firstn (j - i) (skipn i s).

(** [s.replace(old, new)] for a non-empty [old]: the non-overlapping
    occurrences of [old], found left to right.  [skip] counts the
    characters of a matched occurrence still to be dropped. *)
Fixpoint replace_from (old new s : str) (skip : nat) : str :=
  match s with
  | [] => []
  | c :: s' =>
      match skip with
      | S k => replace_from old new s' k
      | O => if startswith old s
             then new ++ replace_from old new s' (length old - 1)
             else c :: replace_from old new s' O
      end
  end.

(** [s.replace(old, new)]; with an empty [old] Python puts [new] before
    every character and at the end. *)
Definition replace (old new s : str) : str :=
  match old with
  | [] => flat_map (fun c => new ++ [c]) s ++ new
  | _ :: _ => replace_from old new s O
  end.

(** [str.isspace] on one code point: the characters that [str.strip()]
    removes. *)
Definition isspace (c : N) : bool :=
  ((9 <=? c) && (c <=? 13) || (28 <=? c) && (c <=? 32)
   || (c =? 133) || (c =? 160) || (c =? 5760)
   || (8192 <=? c) && (c <=? 8202)
   || (c =? 8232) || (c =? 8233) || (c =? 8239) || (c =? 8287)
   || (c =? 12288))%N.

Fixpoint lstrip (s : str) : str :=
  match s with
  | [] => []
  | c :: s' => if isspace c then lstrip s' else s
  end.

Definition rstrip (s : str) : str := rev (lstrip (rev s)).

(** [s.strip()] *)
Definition strip (s : str) : str := rstrip (lstrip s).

(** [s.split(sep)] for a one-character separator. *)
Fixpoint split (sep : N) (s : str) : list str :=
  match s with
  | [] => [[]]
  | c :: s' =>
      if N.eqb c sep then [] :: split sep s'
      else match split sep s' with
           | [] => [[c]]
           | w :: ws => (c :: w) :: ws
           end
  end.

(** [str(n)] for an integer. *)
Definition of_Z (n : Z) : str := u (NilZero.string_of_int (Z.to_int n)).

End Str.

Import Str.

(** ** Exceptions *)

Inductive exn : Set :=
  | TypeError
  | AttributeError
  | ValueError
  | IndexError
  | InvalidBookError
  | InvalidVerseError.

Inductive result (A : Type) : Type :=
  | OK (a : A)
  | Raise (e : exn).

Arguments OK {A} a.
Arguments Raise {A} e.

Definition bind {A B : Type} (r : result A) (k : A -> result B) : result B :=
  match r with
  | OK a => k a
  | Raise e => Raise e
  end.

Notation "'let*' x ':=' r 'in' k" := (bind r (fun x => k))
  (at level 10, x pattern, r at level 100, k at level 200).

(** ** The book enumeration and the book-id table (constants.py)

    [Book] is the enumeration of the external reference library: the
    72 members that [BOOK_IDS] has an entry for.  (The lines commented
    out of the table name no member of the enumeration.) *)

Inductive Book : Set :=
  | GENESIS
  | EXODUS
  | LEVITICUS
  | NUMBERS
  | DEUTERONOMY
  | JOSHUA
  | JUDGES
  | RUTH
  | SAMUEL_1
  | SAMUEL_2
  | KINGS_1
  | KINGS_2
  | CHRONICLES_1
  | CHRONICLES_2
  | EZRA
  | NEHEMIAH
  | ESTHER
  | JOB
  | PSALMS
  | PROVERBS
  | ECCLESIASTES
  | SONG_OF_SONGS
  | ISAIAH
  | JEREMIAH
  | LAMENTATIONS
  | EZEKIEL
  | DANIEL
  | HOSEA
  | JOEL
  | AMOS
  | OBADIAH
  | JONAH
  | MICAH
  | NAHUM
  | HABAKKUK
  | ZEPHANIAH
  | HAGGAI
  | ZECHARIAH
  | MALACHI
  | MATTHEW
  | MARK
  | LUKE
  | JOHN
  | ACTS
  | ROMANS
  | CORINTHIANS_1
  | CORINTHIANS_2
  | GALATIANS
  | EPHESIANS
  | PHILIPPIANS
  | COLOSSIANS
  | THESSALONIANS_1
  | THESSALONIANS_2
  | TIMOTHY_1
  | TIMOTHY_2
  | TITUS
  | PHILEMON
  | HEBREWS
  | JAMES
  | PETER_1
  | PETER_2
  | JOHN_1
  | JOHN_2
  | JOHN_3
  | JUDE
  | REVELATION
  | ESDRAS_1
  | MACCABEES_1
  | MACCABEES_2
  | ECCLESIASTICUS
  | TOBIT
  | WISDOM_OF_SOLOMON.

Scheme Equality for Book.

(** A Python [dict]: keys in insertion order, each key once. *)
Definition dict (K V : Type) := list (K * V).

Definition BOOK_IDS : dict Book str :=
  [
    (GENESIS, u "Gen");
    (EXODUS, u "Exod");
    (LEVITICUS, u "Lev");
    (NUMBERS, u "Num");
    (DEUTERONOMY, u "Deut");
    (JOSHUA, u "Josh");
    (JUDGES, u "Judg");
    (RUTH, u "Ruth");
    (SAMUEL_1, u "1Sam");
    (SAMUEL_2, u "2Sam");
    (KINGS_1, u "1Kgs");
    (KINGS_2, u "2Kgs");
    (CHRONICLES_1, u "1Chr");
    (CHRONICLES_2, u "2Chr");
    (EZRA, u "Ezra");
    (NEHEMIAH, u "Neh");
    (ESTHER, u "Esth");
    (JOB, u "Job");
    (PSALMS, u "Ps");
    (PROVERBS, u "Prov");
    (ECCLESIASTES, u "Eccl");
    (SONG_OF_SONGS, u "Song");
    (ISAIAH, u "Isa");
    (JEREMIAH, u "Jer");
    (LAMENTATIONS, u "Lam");
    (EZEKIEL, u "Ezek");
    (DANIEL, u "Dan");
    (HOSEA, u "Hos");
    (JOEL, u "Joel");
    (AMOS, u "Amos");
    (OBADIAH, u "Obad");
    (JONAH, u "Jonah");
    (MICAH, u "Mic");
    (NAHUM, u "Nah");
    (HABAKKUK, u "Hab");
    (ZEPHANIAH, u "Zeph");
    (HAGGAI, u "Hag");
    (ZECHARIAH, u "Zech");
    (MALACHI, u "Mal");
    (MATTHEW, u "Matt");
    (MARK, u "Mark");
    (LUKE, u "Luke");
    (JOHN, u "John");
    (ACTS, u "Acts");
    (ROMANS, u "Rom");
    (CORINTHIANS_1, u "1Cor");
    (CORINTHIANS_2, u "2Cor");
    (GALATIANS, u "Gal");
    (EPHESIANS, u "Eph");
    (PHILIPPIANS, u "Phil");
    (COLOSSIANS, u "Col");
    (THESSALONIANS_1, u "1Thess");
    (THESSALONIANS_2, u "2Thess");
    (TIMOTHY_1, u "1Tim");
    (TIMOTHY_2, u "2Tim");
    (TITUS, u "Titus");
    (PHILEMON, u "Phlm");
    (HEBREWS, u "Heb");
    (JAMES, u "Jas");
    (PETER_1, u "1Pet");
    (PETER_2, u "2Pet");
    (JOHN_1, u "1John");
    (JOHN_2, u "2John");
    (JOHN_3, u "3John");
    (JUDE, u "Jude");
    (REVELATION, u "Rev");
    (ESDRAS_1, u "1Esd");
    (MACCABEES_1, u "1Macc");
    (MACCABEES_2, u "2Macc");
    (ECCLESIASTICUS, u "Sir");
    (TOBIT, u "Tobit");
    (WISDOM_OF_SOLOMON, u "Wis")
  ].

Fixpoint dict_get {K V : Type} (eqb : K -> K -> bool) (d : dict K V) (k : K)
  : option V :=
  match d with
  | [] => None
  | (k', v) :: d' => if eqb k' k then Some v else dict_get eqb d' k
  end.

(** [d[k] = v]: an existing key keeps its place, a new key goes last. *)
Fixpoint dict_set {K V : Type} (eqb : K -> K -> bool) (d : dict K V) (k : K)
  (v : V) : dict K V :=
  match d with
  | [] => [(k, v)]
  | (k', v') :: d' =>
      if eqb k' k then (k, v) :: d' else (k', v') :: dict_set eqb d' k v
  end.

(** [BOOK_IDS.get(book)] *)
Definition BOOK_IDS_get (book : Book) : option str :=
  dict_get Book_beq BOOK_IDS book.

Fixpoint get_book_by_id_items (items : dict Book str) (book_id : str)
  : result Book :=
  match items with
  | [] => Raise InvalidBookError
  | (next_book, next_book_id) :: items' =>
      if Str.eqb book_id next_book_id then OK next_book
      else get_book_by_id_items items' book_id
  end.

Definition get_book_by_id (book_id : str) : result Book :=
  get_book_by_id_items BOOK_IDS book_id.

(** ** Elements *)

Unset Elimination Schemes.

Inductive Element : Type :=
  mkElement {
    tag : str;
    attrib : dict str str;
    text : option str;
    tail : option str;
    children : list Element
  }.

Set Elimination Schemes.

(** Induction on elements: the property holds of an element when it
    holds of all its children. *)
Section ElementInduction.

Variable P : Element -> Prop.

Hypothesis P_children :
  forall tag attrib text tail children,
    Forall P children -> P (mkElement tag attrib text tail children).

Fixpoint Element_ind (element : Element) : P element :=
  match element with
  | mkElement tag attrib text tail children =>
      P_children tag attrib text tail children
        ((fix all (l : list Element) : Forall P l :=
            match l with
            | [] => Forall_nil P
            | e :: l' => Forall_cons e (Element_ind e) (all l')
            end) children)
  end.

End ElementInduction.

(** [element.get(key, default)] *)
Definition Element_get (element : Element) (key default : str) : str :=
  match dict_get Str.eqb (attrib element) key with
  | Some v => v
  | None => default
  end.

(** The result of the traversal: book -> chapter -> paragraphs. *)
Definition Passage := dict Book (dict Z (list str)).

(** ** The collaborators outside parser.py

    - [get_book_chapter_verse], [get_verse_id]: the reference library's
      decoding and encoding of verse identifiers; both may raise.
    - [int]: Python's built-in conversion of a string to an integer.
    - [find root path ns]: [ElementTree.find(path, {"xmlns": ns})] on the
      tree rooted at [root]; [None] when nothing matches.
    - [sort_paragraphs]: the ordering utility of bible_parser.py. *)

Record Library : Type :=
  mkLibrary {
    get_book_chapter_verse : Z -> result (Book * Z * Z);
    get_verse_id : Book -> Z -> Z -> result Z;
    int : str -> result Z;
    find : Element -> str -> str -> option Element;
    sort_paragraphs : Passage -> Passage
  }.

(** ** parser.py *)

(** [XPATH_BOOK_TITLE.format(code)]; [None] is formatted as ["None"]. *)
Definition format_code (code : option str) : str :=
  match code with
  | Some c => c
  | None => u "None"
  end.

Definition XPATH_BOOK_TITLE_format (code : option str) : str :=
  u ".//xmlns:div[@osisID='" ++ format_code code ++ u "']" ++ u "/xmlns:title".

(** [XPATH_VERSE_PARENT.format(code, chapter, verse)] *)
Definition XPATH_VERSE_PARENT_format (code : option str) (chapter verse : Z)
  : str :=
  u ".//xmlns:verse[@osisID='" ++ format_code code ++ u "." ++ of_Z chapter
    ++ u "." ++ of_Z verse ++ u "']" ++ u "/..".

Definition LBRACE : N := 123.
Definition RBRACE : N := 125.
Definition DOT : N := 46.
Definition NEWLINE : N := 10.
Definition PILCROW : N := 182.

Definition _get_namespace (tag : str) : result str :=
  match index LBRACE tag with
  | None => Raise ValueError
  | Some i =>
      match index RBRACE tag with
      | None => Raise ValueError
      | Some j => OK (slice (i + 1) j tag)
      end
  end.

Definition _strip_namespace_from_tag (tag : str) : result str :=
  let* ns := _get_namespace tag in
  OK (replace [RBRACE] [] (replace [LBRACE] [] (replace ns [] tag))).

Definition _get_element_text (element : Element) : str :=
  match text element with
  | Some (c :: t) => replace [NEWLINE] (u " ") (c :: t)
  | _ => []
  end.

Definition _get_element_tail (element : Element) : str :=
  match tail element with
  | Some (c :: t) => replace [NEWLINE] (u " ") (c :: t)
  | _ => []
  end.

Definition _get_element_text_and_tail (element : Element) : str :=
  _get_element_text element ++ _get_element_tail element.

Definition clean_paragraph (paragraph : str) : str :=
  let cleaned_paragraph := replace (u "  ") (u " ") (replace [PILCROW] [] paragraph) in
  strip cleaned_paragraph.

(** [verse_ids.sort()] on integers. *)
Fixpoint insert_sorted (x : Z) (l : list Z) : list Z :=
  match l with
  | [] => [x]
  | y :: l' => if x <=? y then x :: l else y :: insert_sorted x l'
  end.

Fixpoint sort (l : list Z) : list Z :=
  match l with
  | [] => []
  | x :: l' => insert_sorted x (sort l')
  end.

(** [verse_id in verse_ids] *)
Definition contains (verse_ids : list Z) (verse_id : Z) : bool :=
  existsb (Z.eqb verse_id) verse_ids.

(** [verse_ids.index(verse_id)] *)
Fixpoint tuple_index (verse_ids : list Z) (verse_id : Z) : result nat :=
  match verse_ids with
  | [] => Raise ValueError
  | x :: rest =>
      if Z.eqb x verse_id then OK O
      else let* i := tuple_index rest verse_id in OK (S i)
  end.

Section Parser.

Variable lib : Library.

Definition _handle_verse_tag (child_element : Element) (verse_ids : list Z)
  (skip_till_next_verse : bool) (current_verse_id : Z)
  (include_verse_number : bool) : result (str * bool * Z) :=
  let paragraph : str := [] in
  let osis_id := Element_get child_element (u "osisID") (u "..") in
  if Str.eqb osis_id (u "..") then
    OK (paragraph, skip_till_next_verse, current_verse_id)
  else
    match split DOT osis_id with
    | [book_id; chapter; verse] =>
        let* book := get_book_by_id book_id in
        let* c := int lib chapter in
        let* v := int lib verse in
        let* verse_id := get_verse_id lib book c v in
        if contains verse_ids verse_id then
          let paragraph :=
            if skip_till_next_verse && (current_verse_id + 1 <? verse_id)
            then paragraph ++ u "... " else paragraph in
          let paragraph :=
            if include_verse_number
            then paragraph ++ verse ++ u ". " else paragraph in
          let paragraph := paragraph ++ _get_element_text_and_tail child_element in
          OK (paragraph, false, verse_id)
        else
          OK (paragraph, true, current_verse_id)
    | _ => Raise ValueError
    end.

(** The loop over the children of a nested element: every grandchild is
    handled with the skipping flag left by the one before it, and its
    contribution is appended as it is. *)
Fixpoint for_grandchildren
  (handle : Element -> bool -> result (str * bool * Z))
  (grandchildren : list Element) (paragraph : str)
  (skip_till_next_verse : bool) (new_current_verse_id : Z)
  : result (str * bool * Z) :=
  match grandchildren with
  | [] => OK (paragraph, skip_till_next_verse, new_current_verse_id)
  | grandchild_element :: rest =>
      let* (grandchild_paragraph, skip, new_id) :=
        handle grandchild_element skip_till_next_verse in
      for_grandchildren handle rest (paragraph ++ grandchild_paragraph)
        skip new_id
  end.

Fixpoint _handle_child_element (child_element : Element)
  (verse_ids : list Z) (skip_till_next_verse : bool) (current_verse_id : Z)
  (include_verse_number : bool) (inside_note : bool) {struct child_element}
  : result (str * bool * Z) :=
  let* tag := _strip_namespace_from_tag (tag child_element) in
  if Str.eqb tag (u "verse") then
    _handle_verse_tag child_element verse_ids skip_till_next_verse
      current_verse_id include_verse_number
  else if skip_till_next_verse then
    OK ([], skip_till_next_verse, current_verse_id)
  else if Str.eqb tag (u "rdg") then
    OK (_get_element_text child_element, skip_till_next_verse,
        current_verse_id)
  else if inside_note then
    OK ([], skip_till_next_verse, current_verse_id)
  else if Str.eqb tag (u "w") || Str.eqb tag (u "transChange") then
    OK (_get_element_text_and_tail child_element, skip_till_next_verse,
        current_verse_id)
  else
    let paragraph : str :=
      if Str.eqb tag (u "q")
      then _get_element_text_and_tail child_element else [] in
    let* (paragraph, skip, new_current_verse_id) :=
      for_grandchildren
        (fun grandchild_element skip =>
           _handle_child_element grandchild_element verse_ids skip
             current_verse_id include_verse_number
             (Str.eqb tag (u "note")))
        (children child_element) paragraph skip_till_next_verse
        current_verse_id in
    let paragraph :=
      if Str.eqb tag (u "seg")
      then paragraph ++ _get_element_tail child_element else paragraph in
    OK (clean_paragraph paragraph, skip, new_current_verse_id).

(** One step of the loop of [_get_paragraph_from_element]: an empty
    contribution is passed over; otherwise a space is put after a
    non-empty paragraph that does not end in one, and the contribution
    is appended. *)
Definition add_child_paragraph (paragraph child_paragraph : str) : str :=
  if (length child_paragraph =? 0)%nat then paragraph
  else
    let paragraph :=
      if (0 <? length paragraph)%nat && negb (endswith (u " ") paragraph)
      then paragraph ++ u " " else paragraph in
    paragraph ++ child_paragraph.

Fixpoint for_children (child_elements : list Element) (verse_ids : list Z)
  (include_verse_number : bool) (paragraph : str)
  (skip_till_next_verse : bool) (new_current_verse_id : Z)
  : result (str * bool * Z) :=
  match child_elements with
  | [] => OK (paragraph, skip_till_next_verse, new_current_verse_id)
  | child_element :: rest =>
      let* (child_paragraph, skip, new_id) :=
        _handle_child_element child_element verse_ids skip_till_next_verse
          new_current_verse_id include_verse_number false in
      for_children rest verse_ids include_verse_number
        (add_child_paragraph paragraph child_paragraph) skip new_id
  end.

(** [paragraph_element] is what [find] returned; iterating over [None]
    raises [TypeError]. *)
Definition _get_paragraph_from_element (paragraph_element : option Element)
  (verse_ids : list Z) (current_verse_id : Z) (include_verse_number : bool)
  : result (list str * Z) :=
  match paragraph_element with
  | None => Raise TypeError
  | Some element =>
      let* (paragraph, _, new_current_verse_id) :=
        for_children (children element) verse_ids include_verse_number
          [] false current_verse_id in
      OK ([clean_paragraph paragraph], new_current_verse_id)
  end.

(** The merge at the end of [_get_paragraphs]. *)
Definition merge_paragraphs (paragraph_dictionary : Passage) (book : Book)
  (chapter : Z) (paragraphs : list str) : Passage :=
  let book_dictionary :=
    match dict_get Book_beq paragraph_dictionary book with
    | Some d => d
    | None => []
    end in
  let chapter_list :=
    match dict_get Z.eqb book_dictionary chapter with
    | Some l => l
    | None => []
    end in
  let paragraphs := paragraphs ++ chapter_list in
  let book_dictionary := dict_set Z.eqb book_dictionary chapter paragraphs in
  dict_set Book_beq paragraph_dictionary book book_dictionary.

(** [_get_paragraphs] calls itself on a suffix of [verse_ids]; [fuel]
    bounds the depth of these calls and [None] means it ran out. *)
Fixpoint _get_paragraphs (fuel : nat) (tree : Element) (namespaces : str)
  (verse_ids : list Z) (include_verse_number : bool)
  : option (result Passage) :=
  match fuel with
  | O => None
  | S fuel' =>
      match verse_ids with
      | [] => Some (Raise IndexError)
      | current_verse_id :: _ =>
          match get_book_chapter_verse lib current_verse_id with
          | Raise e => Some (Raise e)
          | OK (book, chapter, verse) =>
              let paragraph_element :=
                find lib tree
                  (XPATH_VERSE_PARENT_format (BOOK_IDS_get book) chapter verse)
                  namespaces in
              match _get_paragraph_from_element paragraph_element verse_ids
                      current_verse_id include_verse_number with
              | Raise e => Some (Raise e)
              | OK (paragraphs, current_verse_id) =>
                  match tuple_index verse_ids current_verse_id with
                  | Raise e => Some (Raise e)
                  | OK i =>
                      let current_verse_index := (i + 1)%nat in
                      let rest :=
                        if (current_verse_index <? length verse_ids)%nat
                        then _get_paragraphs fuel' tree namespaces
                               (skipn current_verse_index verse_ids)
                               include_verse_number
                        else Some (OK []) in
                      match rest with
                      | None => None
                      | Some (Raise e) => Some (Raise e)
                      | Some (OK paragraph_dictionary) =>
                          Some (OK (merge_paragraphs paragraph_dictionary
                                      book chapter paragraphs))
                      end
                  end
              end
          end
      end
  end.

(** ** class OSISParser *)

Record OSISParser : Type :=
  mkOSISParser {
    tree : Element;
    namespaces : str
  }.

(** [__init__], from the root of the parsed document. *)
Definition OSISParser_init (root : Element) : result OSISParser :=
  let* ns := _get_namespace (tag root) in
  OK (mkOSISParser root ns).

Definition _get_book_title_element (self : OSISParser) (book : Book)
  : option Element :=
  let xpath := XPATH_BOOK_TITLE_format (BOOK_IDS_get book) in
  find lib (tree self) xpath (namespaces self).

(** [book_title_element.text or ""]; an attribute of [None] raises
    [AttributeError]. *)
Definition get_book_title (self : OSISParser) (book : Book) : result str :=
  match _get_book_title_element self book with
  | None => Raise AttributeError
  | Some book_title_element =>
      match text book_title_element with
      | Some (c :: t) => OK (c :: t)
      | _ => OK []
      end
  end.

Definition get_short_book_title (self : OSISParser) (book : Book)
  : result str :=
  match _get_book_title_element self book with
  | None => Raise AttributeError
  | Some book_title_element =>
      OK (Element_get book_title_element (u "short") [])
  end.

Definition _get_scripture_passage_text_memoized (self : OSISParser)
  (verse_ids : list Z) (include_verse_number : bool)
  : option (result Passage) :=
  match _get_paragraphs (length verse_ids) (tree self) (namespaces self)
          verse_ids include_verse_number with
  | Some (OK paragraphs) => Some (OK (sort_paragraphs lib paragraphs))
  | other => other
  end.

(** [kwargs.get("include_verse_number", True)] *)
Definition kwargs_include_verse_number (kwargs : option bool) : bool :=
  match kwargs with
  | Some b => b
  | None => true
  end.

(** [get_scripture_passage_text] sorts the list it is given in place:
    the first component of the result is the content of the caller's
    list when the call ends, the second what the call returned or
    raised. *)
Definition get_scripture_passage_text (self : OSISParser)
  (verse_ids : list Z) (kwargs : option bool)
  : list Z * option (result Passage) :=
  match verse_ids with
  | [] => (verse_ids, Some (OK []))
  | _ :: _ =>
      let verse_ids := sort verse_ids in
      let verse_ids_tuple := verse_ids in
      let include_verse_number := kwargs_include_verse_number kwargs in
      (verse_ids,
       _get_scripture_passage_text_memoized self verse_ids_tuple
         include_verse_number)
  end.

(** The two loops of [_get_verse_text_memoized] over the values of the
    mapping: for each book, the first paragraph of its first chapter
    replaces [verse_text] ([break] leaves the inner loop only);
    indexing an empty list of paragraphs raises [IndexError]. *)
Fixpoint first_paragraph_of_each (books : list (dict Z (list str)))
  (verse_text : str) : result str :=
  match books with
  | [] => OK verse_text
  | chapters :: rest =>
      match chapters with
      | [] => first_paragraph_of_each rest verse_text
      | (_, chapter_paragraphs) :: _ =>
          match chapter_paragraphs with
          | [] => Raise IndexError
          | p :: _ => first_paragraph_of_each rest p
          end
      end
  end.

Definition _get_verse_text_memoized (self : OSISParser) (verse_id : Z)
  (include_verse_number : bool) : option (result str) :=
  match _get_paragraphs 1 (tree self) (namespaces self) [verse_id]
          include_verse_number with
  | Some (OK paragraphs) =>
      Some (first_paragraph_of_each (map snd paragraphs) [])
  | Some (Raise e) => Some (Raise e)
  | None => None
  end.

(** [verse_id] is [None] for Python's [None]. *)
Definition get_verse_text (self : OSISParser) (verse_id : option Z)
  (kwargs : option bool) : option (result str) :=
  match verse_id with
  | None => Some (Raise InvalidVerseError)
  | Some verse_id =>
      let include_verse_number := kwargs_include_verse_number kwargs in
      _get_verse_text_memoized self verse_id include_verse_number
  end.

End Parser.

(** ** A reference instance of the collaborators

    Used to run the parser on concrete documents.  It is the reference
    library restricted to the first chapter of Genesis (31 verses):
    there a verse identifier is
    [book * 1000000 + chapter * 1000 + verse] with Genesis as book 1.
    Every other identifier or reference is refused with
    [InvalidVerseError], as the library refuses those that name no
    verse. *)

Module Reference.

Definition get_verse_id (book : Book) (chapter verse : Z) : result Z :=
  match book with
  | GENESIS =>
      if (chapter =? 1) && (1 <=? verse) && (verse <=? 31)
      then OK (1 * 1000000 + chapter * 1000 + verse)
      else Raise InvalidVerseError
  | _ => Raise InvalidVerseError
  end.

Definition get_book_chapter_verse (verse_id : Z) : result (Book * Z * Z) :=
  if (1001001 <=? verse_id) && (verse_id <=? 1001031)
  then OK (GENESIS, verse_id mod 1000000 / 1000, verse_id mod 1000)
  else Raise InvalidVerseError.

(** [int(s)] on a string of ASCII decimal digits. *)
Fixpoint digits (s : str) (acc : Z) : result Z :=
  match s with
  | [] => OK acc
  | c :: s' =>
      if ((48 <=? c) && (c <=? 57))%N
      then digits s' (10 * acc + Z.of_N (c - 48))
      else Raise ValueError
  end.

Definition int (s : str) : result Z :=
  match s with
  | [] => Raise ValueError
  | _ :: _ => digits s 0
  end.

(** The descendants of an element in document order, each with its
    parent. *)
Fixpoint descendants (parent : Element) : list (Element * Element) :=
  flat_map (fun child => (parent, child) :: descendants child)
    (children parent).

Definition qualified (ns : str) (name : string) : str :=
  [LBRACE] ++ ns ++ [RBRACE] ++ u name.

Definition has_osisID (element : Element) (path prefix suffix : str) : bool :=
  match dict_get Str.eqb (attrib element) (u "osisID") with
  | Some v => Str.eqb path (prefix ++ v ++ suffix)
  | None => false
  end.

(** [".//xmlns:verse[@osisID='ID']/.."]: the parent of the first
    [verse] descendant whose [osisID] is [ID]. *)
Definition find_verse_parent (root : Element) (path ns : str)
  : option Element :=
  match List.find
          (fun pe : Element * Element =>
             Str.eqb (tag (snd pe)) (qualified ns "verse")
             && has_osisID (snd pe) path
                  (u ".//xmlns:verse[@osisID='") (u "']/.."))
          (descendants root) with
  | Some (parent, _) => Some parent
  | None => None
  end.

(** [".//xmlns:div[@osisID='ID']/xmlns:title"]: the first [title] child
    of a [div] descendant whose [osisID] is [ID]. *)
Definition find_book_title (root : Element) (path ns : str)
  : option Element :=
  let divs :=
    filter
      (fun pe : Element * Element =>
         Str.eqb (tag (snd pe)) (qualified ns "div")
         && has_osisID (snd pe) path
              (u ".//xmlns:div[@osisID='") (u "']/xmlns:title"))
      (descendants root) in
  List.find (fun e => Str.eqb (tag e) (qualified ns "title"))
    (flat_map (fun pe : Element * Element => children (snd pe)) divs).

Definition find (root : Element) (path ns : str) : option Element :=
  match find_verse_parent root path ns with
  | Some parent => Some parent
  | None => find_book_title root path ns
  end.

(** The place of a book in [BOOK_IDS], which lists the books of the
    canon in canonical order. *)
Fixpoint book_place (items : dict Book str) (book : Book) : Z :=
  match items with
  | [] => 0
  | (b, _) :: items' =>
      if Book_beq b book then 0 else 1 + book_place items' book
  end.

Fixpoint insert_by_key {K V : Type} (key : K -> Z) (k : K) (v : V)
  (d : dict K V) : dict K V :=
  match d with
  | [] => [(k, v)]
  | (k', v') :: d' =>
      if key k <? key k' then (k, v) :: d
      else (k', v') :: insert_by_key key k v d'
  end.

Definition sort_by_key {K V : Type} (key : K -> Z) (d : dict K V)
  : dict K V :=
  fold_right (fun kv sorted => insert_by_key key (fst kv) (snd kv) sorted)
    [] d.

(** Modelled from the spec: [sort_paragraphs] of bible_parser.py, which
    is not among the sources.  It returns the same data with the books
    in canonical order and the chapters ascending, and keeps the order
    of the paragraphs of a chapter. *)
Definition sort_paragraphs (paragraphs : Passage) : Passage :=
  sort_by_key (book_place BOOK_IDS)
    (map (fun bc => (fst bc, sort_by_key (fun chapter : Z => chapter) (snd bc)))
       paragraphs).

Definition library : Library :=
  mkLibrary get_book_chapter_verse get_verse_id int find sort_paragraphs.

(** *** Sample documents *)

Definition NS : str := u "http://www.bibletechnologies.net/2003/OSIS/namespace".

Definition osis (name : string) (attrib : dict str str)
  (text tail : option str) (children : list Element) : Element :=
  mkElement (qualified NS name) attrib text tail children.

Definition verse (osisID text : string) : Element :=
  osis "verse" [(u "osisID", u osisID)] (Some (u text)) None [].

Definition w (text : string) (tail : option str) : Element :=
  osis "w" [] (Some (u text)) tail [].

Definition gen_1_paragraph_1 : Element :=
  osis "p" [] None None
    [ verse "Gen.1.1" "In the beginning God created the heaven and the earth.";
      verse "Gen.1.2" "And the earth was without form, and void.";
      verse "Gen.1.3" "And God said, Let there be light: and there was light." ].

Definition gen_1_paragraph_2 : Element :=
  osis "p" [] None None
    [ verse "Gen.1.4" "And God saw the light, that it was good.";
      verse "Gen.1.5" "And the evening and the morning were the first day." ].

Definition genesis (title : list Element) : Element :=
  osis "div" [(u "type", u "book"); (u "osisID", u "Gen")] None None
    (title ++
     [ osis "chapter" [(u "osisID", u "Gen.1")] None None
         [ gen_1_paragraph_1; gen_1_paragraph_2 ] ]).

Definition genesis_title : Element :=
  osis "title" [(u "short", u "Genesis")]
    (Some (u "The First Book of Moses, called Genesis")) None [].

Definition document (title : list Element) : Element :=
  osis "osis" [] None None [ osis "osisText" [] None None [ genesis title ] ].

Definition parser (title : list Element) : OSISParser :=
  mkOSISParser (document title) NS.

(** A document whose only paragraph has no boundary for Genesis 1:2. *)
Definition document_without_gen_1_2 : Element :=
  osis "osis" [] None None
    [ osis "p" [] None None
        [ verse "Gen.1.1" "In the beginning.";
          verse "Gen.1.3" "And God said." ] ].

(** A paragraph in which the boundary of Genesis 1:3 lies in a
    quotation that follows the boundary of Genesis 1:2. *)
Definition document_with_quoted_verse : Element :=
  osis "osis" [] None None
    [ osis "p" [] None None
        [ verse "Gen.1.1" "In the beginning.";
          verse "Gen.1.2" "And the earth was void.";
          osis "q" [] None None [ verse "Gen.1.3" "Let there be light." ];
          verse "Gen.1.4" "And God saw the light." ] ].

(** A paragraph in which a quotation holds the boundaries of Genesis
    1:2, 1:9 and 1:3, in this order, and the same boundaries as direct
    children of the paragraph. *)
Definition document_with_nested_verses : Element :=
  osis "osis" [] None None
    [ osis "p" [] None None
        [ verse "Gen.1.1" "In the beginning.";
          osis "q" [] None None
            [ verse "Gen.1.2" "And the earth was void.";
              verse "Gen.1.9" "Let the dry land appear.";
              verse "Gen.1.3" "Let there be light." ] ] ].

Definition document_with_flat_verses : Element :=
  osis "osis" [] None None
    [ osis "p" [] None None
        [ verse "Gen.1.1" "In the beginning.";
          verse "Gen.1.2" "And the earth was void.";
          verse "Gen.1.9" "Let the dry land appear.";
          verse "Gen.1.3" "Let there be light." ] ].

(** A line of two words without trailing text. *)
Definition line_in_the : Element :=
  osis "l" [] None None [ w "In" None; w "the" None ].

(** A note with a word and a variant reading. *)
Definition note_with_words : Element :=
  osis "note" [] (Some (u "Or, ")) None
    [ w "void" None; osis "rdg" [] (Some (u "waste")) None [] ].

(** A note with a word, a verse boundary and a variant reading. *)
Definition note_with_verse : Element :=
  osis "note" [] (Some (u "Or, ")) None
    [ w "void" None;
      verse "Gen.1.2" "And the earth was without form.";
      osis "rdg" [] (Some (u "waste")) None [] ].

End Reference.



(** * Properties *)

(** ** Vocabulary of the statements *)

(** The verse boundary [element] carries an identifier that is not the
    placeholder and that decodes: [verse] is the verse part of the
    identifier as written, [verse_id] the identifier it encodes. *)
Definition decodes (lib : Library) (element : Element) (verse : str)
  (verse_id : Z) : Prop :=
  exists book_id chapter book c v,
    Element_get element (u "osisID") (u "..") <> u ".."
    /\ split DOT (Element_get element (u "osisID") (u "..")) = [book_id; chapter; verse]
    /\ get_book_by_id book_id = OK book
    /\ int lib chapter = OK c
    /\ int lib verse = OK v
    /\ get_verse_id lib book c v = OK verse_id.

(** The element has a qualified tag, and it is not a verse boundary. *)
Definition not_a_verse (element : Element) : Prop :=
  exists t, _strip_namespace_from_tag (tag element) = OK t /\ t <> u "verse".

(** What a requested verse boundary puts before its text. *)
Definition ellipsis_due (skip_till_next_verse : bool)
  (current_verse_id verse_id : Z) : bool :=
  skip_till_next_verse && (current_verse_id + 1 <? verse_id).

Definition verse_prefix (skip_till_next_verse : bool)
  (current_verse_id : Z) (include_verse_number : bool) (verse : str)
  (verse_id : Z) : str :=
  (if ellipsis_due skip_till_next_verse current_verse_id verse_id
   then u "... " else [])
  ++ (if include_verse_number then verse ++ u ". " else []).

(** [contributions handle elements skip id ps skip' id']: handling the
    [elements] one after the other from the state [(skip, id)] yields
    the contributions [ps], in document order, and ends in the state
    [(skip', id')]. *)
Inductive contributions
  (handle : Element -> bool -> Z -> result (str * bool * Z))
  : list Element -> bool -> Z -> list str -> bool -> Z -> Prop :=
  | contributions_nil skip id : contributions handle [] skip id [] skip id
  | contributions_cons e es skip id p skip1 id1 ps skip2 id2 :
      handle e skip id = OK (p, skip1, id1) ->
      contributions handle es skip1 id1 ps skip2 id2 ->
      contributions handle (e :: es) skip id (p :: ps) skip2 id2.

(** [old] occurs in [s] as a substring. *)
Definition occurs (old s : str) : Prop :=
  exists pre post, s = pre ++ old ++ post.

(** [old in s], computed. *)
Fixpoint occursb (old s : str) : bool :=
  startswith old s
  || match s with
     | [] => false
     | _ :: s' => occursb old s'
     end.

(** The tag ["{ns}local"]. *)
Definition qualified_tag (ns local : str) : str :=
  [LBRACE] ++ ns ++ [RBRACE] ++ local.

(** The paragraphs a mapping holds for a book and chapter. *)
Definition passage_lookup (paragraphs : Passage) (book : Book) (chapter : Z)
  : option (list str) :=
  match dict_get Book_beq paragraphs book with
  | Some book_dictionary => dict_get Z.eqb book_dictionary chapter
  | None => None
  end.

(** No verse boundary at the element or below it, and every tag there
    is qualified. *)
Fixpoint verse_free (element : Element) : bool :=
  match _strip_namespace_from_tag (tag element) with
  | OK t => negb (Str.eqb t (u "verse"))
  | Raise _ => false
  end
  && forallb verse_free (children element).

(** Two results that agree on everything but the text: the same
    exception, or the same skipping flag and current identifier. *)
Definition same_state (r1 r2 : result (str * bool * Z)) : Prop :=
  match r1, r2 with
  | OK (_, skip1, id1), OK (_, skip2, id2) => skip1 = skip2 /\ id1 = id2
  | Raise e1, Raise e2 => e1 = e2
  | _, _ => False
  end.

(** A tag with no role of its own in [_handle_child_element]. *)
Definition is_generic (t : str) : bool :=
  negb (existsb (Str.eqb t)
          [u "verse"; u "rdg"; u "w"; u "transChange"; u "q"; u "seg";
           u "note"]).

(** What a child of a note that is not a verse boundary contributes:
    its text when it is a variant reading, nothing otherwise. *)
Definition reading_text (child : Element) : str :=
  match _strip_namespace_from_tag (tag child) with
  | OK t => if Str.eqb t (u "rdg") then _get_element_text child else []
  | Raise _ => []
  end.

(** ** Strings *)

Lemma str_eqb_eq (a b : str) : Str.eqb a b = true <-> a = b.
Proof.
  revert b; induction a as [|x a IH]; intros [|y b]; simpl; split;
    try congruence; try reflexivity.
  - intros H. apply andb_true_iff in H as [Hx Hab].
    apply N.eqb_eq in Hx. apply IH in Hab. congruence.
  - intros H. injection H as -> ->. rewrite N.eqb_refl.
    apply IH. reflexivity.
Qed.

Lemma str_eqb_refl (a : str) : Str.eqb a a = true.
Proof. apply str_eqb_eq. reflexivity. Qed.

Lemma str_eqb_neq (a b : str) : Str.eqb a b = false <-> a <> b.
Proof.
  split.
  - intros H E. apply str_eqb_eq in E. congruence.
  - intros H. destruct (Str.eqb a b) eqn:E; [|reflexivity].
    apply str_eqb_eq in E. contradiction.
Qed.

Example replace_nonoverlapping :
  replace (u "aa") (u "b") (u "aaaxaa") = u "baxb".
Proof. reflexivity. Qed.

Example replace_empty_old : replace [] (u "-") (u "ab") = u "-a-b-".
Proof. reflexivity. Qed.

Example split_dots : split DOT (u "Gen.1.12") = [u "Gen"; u "1"; u "12"].
Proof. reflexivity. Qed.

Example split_placeholder : split DOT (u "..") = [[]; []; []].
Proof. reflexivity. Qed.

Example of_Z_examples :
  of_Z 0 = u "0" /\ of_Z 31 = u "31" /\ of_Z (-7) = u "-7".
Proof. repeat split; reflexivity. Qed.

Example strip_example : strip ([32; 9] ++ u "a b" ++ [160; 10])%N = u "a b".
Proof. reflexivity. Qed.

Example strip_namespace_example :
  _strip_namespace_from_tag (Reference.qualified Reference.NS "verse")
  = OK (u "verse").
Proof. reflexivity. Qed.

Example init_reference :
  OSISParser_init (Reference.document [Reference.genesis_title])
  = OK (Reference.parser [Reference.genesis_title]).
Proof. reflexivity. Qed.

Example clean_paragraph_example :
  clean_paragraph ([PILCROW] ++ u " In  the beginning ") = u "In the beginning".
Proof. reflexivity. Qed.

(** ** The verse boundary *)

Section VerseTag.

Variable lib : Library.

Lemma _handle_verse_tag_placeholder element verse_ids skip cur inc :
  Element_get element (u "osisID") (u "..") = u ".." ->
  _handle_verse_tag lib element verse_ids skip cur inc = OK ([], skip, cur).
Proof.
  intros H. unfold _handle_verse_tag. rewrite H. reflexivity.
Qed.

Lemma _handle_verse_tag_decoded element verse_ids skip cur inc verse verse_id :
  decodes lib element verse verse_id ->
  _handle_verse_tag lib element verse_ids skip cur inc
  = if contains verse_ids verse_id
    then OK (verse_prefix skip cur inc verse verse_id
               ++ _get_element_text_and_tail element, false, verse_id)
    else OK ([], true, cur).
Proof.
  intros (book_id & chapter & book & c & v & Hne & Hsplit & Hb & Hc & Hv & Hid).
  unfold _handle_verse_tag.
  apply str_eqb_neq in Hne. rewrite Hne, Hsplit, Hb. simpl.
  rewrite Hc. simpl. rewrite Hv. simpl. rewrite Hid. simpl.
  destruct (contains verse_ids verse_id); [|reflexivity].
  unfold verse_prefix, ellipsis_due.
  destruct (skip && (cur + 1 <? verse_id)), inc; simpl;
    rewrite <- ?app_assoc; reflexivity.
Qed.

(** The identifier a verse boundary returns is the one it was given or
    one of the requested identifiers. *)
Lemma _handle_verse_tag_id element verse_ids skip cur inc p skip' cur' :
  _handle_verse_tag lib element verse_ids skip cur inc = OK (p, skip', cur') ->
  cur' = cur \/ contains verse_ids cur' = true.
Proof.
  unfold _handle_verse_tag.
  destruct (Str.eqb _ _); [intros [= _ _ <-]; now left|].
  destruct (split DOT _) as [|b [|c [|v [|? ?]]]]; try discriminate.
  destruct (get_book_by_id b); simpl; [|discriminate].
  destruct (int lib c); simpl; [|discriminate].
  destruct (int lib v); simpl; [|discriminate].
  destruct (get_verse_id lib a a0 a1) as [verse_id|]; simpl; [|discriminate].
  destruct (contains verse_ids verse_id) eqn:E.
  - intros [= _ _ <-]. now right.
  - intros [= _ _ <-]. now left.
Qed.

End VerseTag.

(** ** The traversal *)

Section Traversal.

Variable lib : Library.

Lemma _handle_child_element_eq child_element verse_ids skip cur inc inside_note :
  _handle_child_element lib child_element verse_ids skip cur inc inside_note
  = let* t := _strip_namespace_from_tag (tag child_element) in
    if Str.eqb t (u "verse") then
      _handle_verse_tag lib child_element verse_ids skip cur inc
    else if skip then OK ([], skip, cur)
    else if Str.eqb t (u "rdg") then
      OK (_get_element_text child_element, skip, cur)
    else if inside_note then OK ([], skip, cur)
    else if Str.eqb t (u "w") || Str.eqb t (u "transChange") then
      OK (_get_element_text_and_tail child_element, skip, cur)
    else
      let* (paragraph, skip', new_id) :=
        for_grandchildren
          (fun grandchild_element skip0 =>
             _handle_child_element lib grandchild_element verse_ids skip0
               cur inc (Str.eqb t (u "note")))
          (children child_element)
          (if Str.eqb t (u "q")
           then _get_element_text_and_tail child_element else [])
          skip cur in
      OK (clean_paragraph
            (if Str.eqb t (u "seg")
             then paragraph ++ _get_element_tail child_element
             else paragraph),
          skip', new_id).
Proof. destruct child_element; reflexivity. Qed.

(** While skipping, an element that is not a verse boundary contributes
    nothing and changes nothing. *)
Lemma _handle_child_element_skipping element verse_ids cur inc inside_note :
  not_a_verse element ->
  _handle_child_element lib element verse_ids true cur inc inside_note
  = OK ([], true, cur).
Proof.
  intros (t & Ht & Hne). rewrite _handle_child_element_eq, Ht. simpl.
  apply str_eqb_neq in Hne. rewrite Hne. reflexivity.
Qed.

Lemma add_child_paragraph_empty paragraph :
  add_child_paragraph paragraph [] = paragraph.
Proof. reflexivity. Qed.

Lemma for_children_skipping child_elements verse_ids inc paragraph cur :
  Forall not_a_verse child_elements ->
  for_children lib child_elements verse_ids inc paragraph true cur
  = OK (paragraph, true, cur).
Proof.
  induction 1 as [|e rest He _ IH]; simpl; [reflexivity|].
  rewrite _handle_child_element_skipping by assumption. simpl.
  exact IH.
Qed.

(** The loop over grandchildren keeps any property of the identifier
    that every grandchild's result has. *)
Lemma for_grandchildren_id (Q : Z -> Prop) handle grandchildren :
  Forall (fun g => forall skip p skip' c,
            handle g skip = OK (p, skip', c) -> Q c) grandchildren ->
  forall paragraph skip new_id p skip' c,
    Q new_id ->
    for_grandchildren handle grandchildren paragraph skip new_id
    = OK (p, skip', c) ->
    Q c.
Proof.
  induction 1 as [|g rest Hg _ IH]; simpl; intros paragraph skip new_id p skip' c HQ.
  - intros [= _ _ <-]. exact HQ.
  - destruct (handle g skip) as [[[gp gs] gc]|] eqn:E; simpl; [|discriminate].
    apply IH. eapply Hg. exact E.
Qed.

(** The identifier an element returns is the one it was given or one of
    the requested identifiers. *)
Lemma _handle_child_element_id verse_ids inc element :
  forall skip cur inside_note p skip' cur',
    _handle_child_element lib element verse_ids skip cur inc inside_note
    = OK (p, skip', cur') ->
    cur' = cur \/ contains verse_ids cur' = true.
Proof.
  induction element as [tg at_ tx tl cs IH] using Element_ind.
  intros skip cur inside_note p skip' cur'.
  rewrite _handle_child_element_eq.
  destruct (_strip_namespace_from_tag _) as [t|]; simpl; [|discriminate].
  destruct (Str.eqb t (u "verse")); [apply _handle_verse_tag_id|].
  destruct skip; [intros [= _ _ <-]; now left|].
  destruct (Str.eqb t (u "rdg")); [intros [= _ _ <-]; now left|].
  destruct inside_note; [intros [= _ _ <-]; now left|].
  destruct (_ || _); [intros [= _ _ <-]; now left|].
  destruct (for_grandchildren _ _ _ _ _) as [[[gp gs] gc]|] eqn:E; simpl;
    [|discriminate].
  intros [= _ _ <-].
  eapply (for_grandchildren_id (fun c => c = cur \/ contains verse_ids c = true));
    [|now left|exact E].
  eapply Forall_impl; [|exact IH].
  intros g Hg sk gp' gs' c Hc. eapply Hg. exact Hc.
Qed.

Lemma contains_In verse_ids verse_id :
  contains verse_ids verse_id = true <-> In verse_id verse_ids.
Proof.
  unfold contains. rewrite existsb_exists. split.
  - intros (x & Hx & E). apply Z.eqb_eq in E. now subst.
  - intros H. exists verse_id. split; [assumption|apply Z.eqb_refl].
Qed.

Lemma for_children_id child_elements verse_ids inc :
  forall paragraph skip cur p skip' cur',
    In cur verse_ids ->
    for_children lib child_elements verse_ids inc paragraph skip cur
    = OK (p, skip', cur') ->
    In cur' verse_ids.
Proof.
  induction child_elements as [|e rest IH]; simpl;
    intros paragraph skip cur p skip' cur' Hin.
  - intros [= _ _ <-]. exact Hin.
  - destruct (_handle_child_element _ _ _ _ _ _ _) as [[[cp cs] cc]|] eqn:E;
      simpl; [|discriminate].
    apply IH. apply _handle_child_element_id in E as [->|E]; [exact Hin|].
    now apply contains_In.
Qed.

(** The identifier a paragraph returns is a requested one. *)
Lemma _get_paragraph_from_element_id paragraph_element verse_ids cur inc ps cur' :
  In cur verse_ids ->
  _get_paragraph_from_element lib paragraph_element verse_ids cur inc
  = OK (ps, cur') ->
  In cur' verse_ids.
Proof.
  intros Hin. unfold _get_paragraph_from_element.
  destruct paragraph_element as [element|]; [|discriminate].
  destruct (for_children _ _ _ _ _ _ _) as [[[p s] c]|] eqn:E; simpl;
    [|discriminate].
  intros [= _ <-]. eapply for_children_id; eassumption.
Qed.

Lemma tuple_index_In verse_ids verse_id :
  In verse_id verse_ids ->
  exists i, tuple_index verse_ids verse_id = OK i /\ (i < length verse_ids)%nat.
Proof.
  induction verse_ids as [|x rest IH]; simpl; [contradiction|].
  intros H. destruct (Z.eqb x verse_id) eqn:E.
  - exists O. split; [reflexivity|lia].
  - destruct H as [->|H]; [rewrite Z.eqb_refl in E; discriminate|].
    destruct (IH H) as (i & Hi & Hlt). exists (S i). rewrite Hi. simpl.
    split; [reflexivity|lia].
Qed.

Lemma tuple_index_bound verse_ids verse_id i :
  tuple_index verse_ids verse_id = OK i -> (i < length verse_ids)%nat.
Proof.
  revert i; induction verse_ids as [|x rest IH]; simpl; intros i;
    [discriminate|].
  destruct (Z.eqb x verse_id).
  - intros [= <-]. lia.
  - destruct (tuple_index rest verse_id) as [j|]; simpl; [|discriminate].
    intros [= <-]. specialize (IH j eq_refl). lia.
Qed.

(** With fuel for every requested identifier, [_get_paragraphs] does
    not run out. *)
Lemma _get_paragraphs_enough_fuel tree ns inc fuel :
  forall verse_ids,
    (length verse_ids <= fuel)%nat -> verse_ids <> [] ->
    exists r, _get_paragraphs lib fuel tree ns verse_ids inc = Some r.
Proof.
  induction fuel as [|fuel IH]; intros verse_ids Hlen Hne.
  - destruct verse_ids; [contradiction|simpl in Hlen; lia].
  - simpl. destruct verse_ids as [|v rest]; [contradiction|].
    destruct (get_book_chapter_verse lib v) as [[[book chapter] verse]|e];
      [|eauto].
    destruct (_get_paragraph_from_element _ _ _ _ _) as [[ps cur']|e]; [|eauto].
    destruct (tuple_index (v :: rest) cur') as [i|e] eqn:Ei; [|eauto].
    destruct (i + 1 <? length (v :: rest))%nat eqn:Elt.
    + apply Nat.ltb_lt in Elt.
      destruct (IH (skipn (i + 1) (v :: rest))) as [r Hr].
      * rewrite length_skipn. cbn [length] in *. lia.
      * intros Hnil. apply (f_equal (@length Z)) in Hnil.
        rewrite length_skipn in Hnil. cbn [length] in *. lia.
      * rewrite Hr. destruct r; eauto.
    + eauto.
Qed.

(** More fuel does not change a result. *)
Lemma _get_paragraphs_more_fuel tree ns inc fuel :
  forall verse_ids r fuel',
    _get_paragraphs lib fuel tree ns verse_ids inc = Some r ->
    (fuel <= fuel')%nat ->
    _get_paragraphs lib fuel' tree ns verse_ids inc = Some r.
Proof.
  induction fuel as [|fuel IH]; intros verse_ids r fuel' H Hle;
    [discriminate|].
  destruct fuel' as [|fuel']; [lia|].
  simpl in *. destruct verse_ids as [|v rest]; [exact H|].
  destruct (get_book_chapter_verse lib v) as [[[book chapter] verse]|e];
    [|exact H].
  destruct (_get_paragraph_from_element _ _ _ _ _) as [[ps cur']|e]; [|exact H].
  destruct (tuple_index (v :: rest) cur') as [i|e]; [|exact H].
  destruct (i + 1 <? length (v :: rest))%nat; [|exact H].
  destruct (_get_paragraphs lib fuel _ _ _ _) as [r0|] eqn:E; [|discriminate].
  rewrite (IH _ _ fuel' E) by lia. exact H.
Qed.

End Traversal.

(** ** Sorting *)

Lemma insert_sorted_permutation x l : Permutation (x :: l) (insert_sorted x l).
Proof.
  induction l as [|y l IH]; simpl; [reflexivity|].
  destruct (x <=? y); [reflexivity|].
  rewrite perm_swap. apply perm_skip. exact IH.
Qed.

Lemma sort_permutation l : Permutation l (sort l).
Proof.
  induction l as [|x l IH]; simpl; [constructor|].
  rewrite <- insert_sorted_permutation. apply perm_skip. exact IH.
Qed.

Lemma insert_sorted_sorted x l : Sorted Z.le l -> Sorted Z.le (insert_sorted x l).
Proof.
  induction 1 as [|y l Hs IH Hhd]; simpl; [repeat constructor|].
  destruct (x <=? y) eqn:E.
  - apply Z.leb_le in E. repeat constructor; assumption.
  - apply Z.leb_gt in E. constructor; [exact IH|].
    destruct l as [|z l]; simpl.
    + constructor. lia.
    + destruct (x <=? z); constructor; [lia|].
      inversion Hhd; assumption.
Qed.

Lemma sort_sorted l : Sorted Z.le (sort l).
Proof.
  induction l as [|x l IH]; simpl; [constructor|].
  apply insert_sorted_sorted. exact IH.
Qed.

(** * The claims *)

(** A verse boundary whose identifier decodes, handled on its own:
    it contributes its text and trailing text (after the ellipsis and
    number it may be due) if and only if the decoded identifier is
    requested, and then clears the skipping flag and becomes the
    current verse; otherwise it contributes nothing, leaves the current
    verse and sets the skipping flag, and the elements after it that
    are not verse boundaries then contribute nothing to the paragraph
    and leave the state as it is. *)
Lemma verse_boundary_contributes_iff_requested
  lib element verse_ids skip cur inc verse verse_id :
  decodes lib element verse verse_id ->
  _handle_verse_tag lib element verse_ids skip cur inc
  = (if contains verse_ids verse_id
     then OK (verse_prefix skip cur inc verse verse_id
                ++ _get_element_text_and_tail element, false, verse_id)
     else OK ([], true, cur))
  /\ (In verse_id verse_ids <->
      exists prefix,
        _handle_verse_tag lib element verse_ids skip cur inc
        = OK (prefix ++ _get_element_text_and_tail element, false, verse_id))
  /\ (~ In verse_id verse_ids ->
      _handle_verse_tag lib element verse_ids skip cur inc = OK ([], true, cur)
      /\ forall following paragraph,
           Forall not_a_verse following ->
           for_children lib following verse_ids inc paragraph true cur
           = OK (paragraph, true, cur)).
Proof.
  intros Hd.
  pose proof (_handle_verse_tag_decoded lib element verse_ids skip cur inc
                verse verse_id Hd) as E.
  split; [exact E|]. split.
  - split.
    + intros Hin. apply contains_In in Hin. rewrite Hin in E. eauto.
    + intros [prefix Hp]. apply contains_In.
      destruct (contains verse_ids verse_id); [reflexivity|].
      rewrite E in Hp. discriminate.
  - intros Hnot. split.
    + destruct (contains verse_ids verse_id) eqn:C; [|exact E].
      apply contains_In in C. contradiction.
    + intros following paragraph Hf. now apply for_children_skipping.
Qed.

(** C7.  A verse boundary whose id attribute is absent or is the
    placeholder [".."] contributes the empty string and returns the
    skipping flag and the current verse identifier as they were passed
    in, also when it is reached as a child element. *)
Theorem placeholder_verse_leaves_state
  lib element verse_ids skip cur inc :
  dict_get Str.eqb (attrib element) (u "osisID") = None
  \/ dict_get Str.eqb (attrib element) (u "osisID") = Some (u "..") ->
  _handle_verse_tag lib element verse_ids skip cur inc = OK ([], skip, cur)
  /\ (_strip_namespace_from_tag (tag element) = OK (u "verse") ->
      forall inside_note,
        _handle_child_element lib element verse_ids skip cur inc inside_note
        = OK ([], skip, cur)).
Proof.
  intros H.
  assert (E : Element_get element (u "osisID") (u "..") = u "..").
  { unfold Element_get. destruct H as [-> | ->]; reflexivity. }
  split.
  - now apply _handle_verse_tag_placeholder.
  - intros Ht inside_note. rewrite _handle_child_element_eq, Ht. simpl.
    now apply _handle_verse_tag_placeholder.
Qed.

(** C9.  Called with a non-empty list, [get_scripture_passage_text]
    sorts the caller's list in place: when the call ends, whatever it
    returned or raised, the list holds the same identifiers in
    ascending order.  The list is the only state of the caller that
    the call changes. *)
Theorem get_scripture_passage_text_sorts_caller_list
  lib self verse_ids kwargs :
  verse_ids <> [] ->
  let after := fst (get_scripture_passage_text lib self verse_ids kwargs) in
  after = sort verse_ids
  /\ Sorted Z.le after
  /\ Permutation verse_ids after.
Proof.
  intros Hne. destruct verse_ids as [|x l]; [contradiction|].
  cbn [get_scripture_passage_text fst].
  split; [reflexivity|]. split; [apply sort_sorted|apply sort_permutation].
Qed.

(** C10.  [_get_paragraphs] terminates on every non-empty tuple of
    verse identifiers.  The identifier that
    [_get_paragraph_from_element] returns is a member of the tuple
    whenever the one it was given is, so its index is found, and the
    tuple passed to the recursive call is a strictly shorter suffix,
    non-empty whenever the call is made.  Hence fuel equal to the
    length of the tuple is enough, and more fuel gives the same
    result. *)
Theorem _get_paragraphs_terminates lib tree ns verse_ids inc :
  verse_ids <> [] ->
  (forall paragraph_element cur ps cur',
     In cur verse_ids ->
     _get_paragraph_from_element lib paragraph_element verse_ids cur inc
     = OK (ps, cur') ->
     In cur' verse_ids
     /\ exists i,
          tuple_index verse_ids cur' = OK i
          /\ verse_ids = firstn (i + 1) verse_ids ++ skipn (i + 1) verse_ids
          /\ (length (skipn (i + 1) verse_ids) < length verse_ids)%nat
          /\ ((i + 1 < length verse_ids)%nat -> skipn (i + 1) verse_ids <> []))
  /\ (exists r,
        forall fuel, (length verse_ids <= fuel)%nat ->
          _get_paragraphs lib fuel tree ns verse_ids inc = Some r).
Proof.
  intros Hne. split.
  - intros pe cur ps cur' Hin H.
    pose proof (_get_paragraph_from_element_id lib _ _ _ _ _ _ Hin H) as Hin'.
    split; [exact Hin'|].
    destruct (tuple_index_In _ _ Hin') as (i & Hi & Hlt).
    exists i. split; [exact Hi|]. split; [symmetry; apply firstn_skipn|].
    rewrite length_skipn. split; [lia|].
    intros Hlt' Hnil. apply (f_equal (@length Z)) in Hnil.
    rewrite length_skipn in Hnil. cbn [length] in Hnil. lia.
  - destruct (_get_paragraphs_enough_fuel lib tree ns inc (length verse_ids)
                verse_ids (le_n _) Hne) as [r Hr].
    exists r. intros fuel Hle.
    eapply _get_paragraphs_more_fuel; eassumption.
Qed.

Lemma placeholder_verse_leaves_state_witness :
  dict_get Str.eqb
    (attrib (Reference.osis "verse" [(u "eID", u "Gen.1.1")] None
               (Some (u " ")) []))
    (u "osisID") = None
  /\ _handle_verse_tag Reference.library
       (Reference.osis "verse" [(u "eID", u "Gen.1.1")] None (Some (u " ")) [])
       [1001001] true 1001001 true
     = OK ([], true, 1001001).
Proof.
  split; [reflexivity|].
  exact (proj1 (placeholder_verse_leaves_state Reference.library
                  (Reference.osis "verse" [(u "eID", u "Gen.1.1")] None
                     (Some (u " ")) [])
                  [1001001] true 1001001 true (or_introl eq_refl))).
Defined.

Lemma get_scripture_passage_text_sorts_caller_list_witness :
  [1001004; 1001001; 1001002] <> []
  /\ fst (get_scripture_passage_text Reference.library
            (Reference.parser [Reference.genesis_title])
            [1001004; 1001001; 1001002] None)
     = [1001001; 1001002; 1001004].
Proof.
  assert (H : [1001004; 1001001; 1001002] <> []) by discriminate.
  split; [exact H|].
  exact (proj1 (get_scripture_passage_text_sorts_caller_list Reference.library
                  (Reference.parser [Reference.genesis_title])
                  [1001004; 1001001; 1001002] None H)).
Defined.

Lemma _get_paragraphs_terminates_witness :
  [1001001; 1001004] <> []
  /\ exists r,
       forall fuel, (length [1001001%Z; 1001004%Z] <= fuel)%nat ->
         _get_paragraphs Reference.library fuel
           (Reference.document [Reference.genesis_title]) Reference.NS
           [1001001; 1001004] true = Some r.
Proof.
  assert (H : [1001001; 1001004] <> []) by discriminate.
  split; [exact H|].
  exact (proj2 (_get_paragraphs_terminates Reference.library
                  (Reference.document [Reference.genesis_title]) Reference.NS
                  [1001001; 1001004] true H)).
Defined.

(** ** Lookups that find nothing *)

Section Lookups.

Variable lib : Library.

(** When the paragraph of the first identifier is not found, the call
    raises [TypeError], whatever the fuel. *)
Lemma _get_paragraphs_paragraph_not_found
  fuel tree ns v rest inc book chapter verse :
  get_book_chapter_verse lib v = OK (book, chapter, verse) ->
  find lib tree (XPATH_VERSE_PARENT_format (BOOK_IDS_get book) chapter verse) ns
  = None ->
  _get_paragraphs lib (S fuel) tree ns (v :: rest) inc = Some (Raise TypeError).
Proof.
  intros Hd Hf. simpl. rewrite Hd, Hf. reflexivity.
Qed.

Lemma get_book_title_element_not_found self book :
  _get_book_title_element lib self book = None ->
  get_book_title lib self book = Raise AttributeError
  /\ get_short_book_title lib self book = Raise AttributeError.
Proof.
  intros H. unfold get_book_title, get_short_book_title. rewrite H.
  split; reflexivity.
Qed.

(** With the title element present, a missing text or a missing
    [short] attribute gives the empty string. *)
Lemma get_book_title_no_text self book title :
  _get_book_title_element lib self book = Some title ->
  text title = None \/ text title = Some [] ->
  get_book_title lib self book = OK [].
Proof.
  intros H Ht. unfold get_book_title. rewrite H.
  destruct Ht as [-> | ->]; reflexivity.
Qed.

Lemma get_short_book_title_no_attribute self book title :
  _get_book_title_element lib self book = Some title ->
  dict_get Str.eqb (attrib title) (u "short") = None ->
  get_short_book_title lib self book = OK [].
Proof.
  intros H Ha. unfold get_short_book_title, Element_get.
  rewrite H, Ha. reflexivity.
Qed.

End Lookups.

(** C1 (the code departs from it).  Genesis 1:3 is requested and its
    boundary is in the document, inside a quotation that comes after
    the boundary of Genesis 1:2, which is not requested.  The quotation
    is reached while skipping and is not descended into: the text of
    Genesis 1:3 is not in the output, and no later step looks for it.
    When Genesis 1:2 is requested too, the quotation is descended into
    and the text is there. *)
Theorem requested_verse_below_skipped_element_is_left_out :
  contains [1001001; 1001003; 1001004] 1001003 = true
  /\ Reference.find Reference.document_with_quoted_verse
       (XPATH_VERSE_PARENT_format (BOOK_IDS_get GENESIS) 1 3) Reference.NS
     = Some (Reference.osis "q" [] None None
               [ Reference.verse "Gen.1.3" "Let there be light." ])
  /\ get_scripture_passage_text Reference.library
       (mkOSISParser Reference.document_with_quoted_verse Reference.NS)
       [1001004; 1001001; 1001003] (Some false)
     = ([1001001; 1001003; 1001004],
        Some (OK [(GENESIS,
                   [(1, [u "In the beginning. ... And God saw the light."])])]))
  /\ occursb (u "Let there be light.")
       (u "In the beginning. ... And God saw the light.") = false
  /\ get_scripture_passage_text Reference.library
       (mkOSISParser Reference.document_with_quoted_verse Reference.NS)
       [1001004; 1001001; 1001003; 1001002] (Some false)
     = ([1001001; 1001002; 1001003; 1001004],
        Some (OK [(GENESIS,
                   [(1, [u "In the beginning. And the earth was void. Let there be light. And God saw the light."])])])).
Proof. repeat split; reflexivity. Qed.

(** C5 (the code departs from it).  Genesis 1:1, 1:2 and 1:3 are
    requested.  In the first document the boundaries of 1:2, 1:9 and
    1:3 lie in a quotation: each of them is handled with the identifier
    the quotation was given (1:1), so after the unrequested 1:9 the
    marker is put before 1:3 although 1:2 was consumed just before it.
    In the second document the same boundaries are direct children of
    the paragraph, 1:3 is compared with 1:2, and no marker is put. *)
Theorem ellipsis_between_adjacent_verses_in_nested_element :
  get_scripture_passage_text Reference.library
    (mkOSISParser Reference.document_with_nested_verses Reference.NS)
    [1001001; 1001002; 1001003] None
  = ([1001001; 1001002; 1001003],
     Some (OK [(GENESIS,
                [(1, [u "1. In the beginning. 2. And the earth was void.... 3. Let there be light."])])]))
  /\ get_scripture_passage_text Reference.library
       (mkOSISParser Reference.document_with_flat_verses Reference.NS)
       [1001001; 1001002; 1001003] None
     = ([1001001; 1001002; 1001003],
        Some (OK [(GENESIS,
                   [(1, [u "1. In the beginning. 2. And the earth was void. 3. Let there be light."])])]))
  /\ _handle_verse_tag Reference.library
       (Reference.verse "Gen.1.3" "Let there be light.")
       [1001001; 1001002; 1001003] true 1001001 true
     = OK (u "... 3. Let there be light.", false, 1001003)
  /\ _handle_verse_tag Reference.library
       (Reference.verse "Gen.1.3" "Let there be light.")
       [1001001; 1001002; 1001003] true 1001002 true
     = OK (u "3. Let there be light.", false, 1001003).
Proof. repeat split; reflexivity. Qed.





(** C3 (the code departs from it).  Genesis 1:9 decodes and its book
    has a code, but the document has no boundary [Gen.1.9]: the search
    returns nothing and the request raises [TypeError] instead of
    contributing empty text.  So does a request for Genesis 1:1 and
    1:2 on a document without a boundary for 1:2, at the recursive
    step that starts at 1:2.  The same missing verse raises nothing
    when it is asked for between 1:1 and 1:3, which lie in one
    paragraph: it is then passed over. *)
Theorem missing_verse_raises_type_error :
  Reference.get_book_chapter_verse 1001009 = OK (GENESIS, 1, 9)
  /\ BOOK_IDS_get GENESIS = Some (u "Gen")
  /\ Reference.find (Reference.document [Reference.genesis_title])
       (XPATH_VERSE_PARENT_format (Some (u "Gen")) 1 9) Reference.NS = None
  /\ get_scripture_passage_text Reference.library
       (Reference.parser [Reference.genesis_title]) [1001009] None
     = ([1001009], Some (Raise TypeError))
  /\ get_scripture_passage_text Reference.library
       (mkOSISParser Reference.document_without_gen_1_2 Reference.NS)
       [1001002; 1001001] None
     = ([1001001; 1001002], Some (Raise TypeError))
  /\ get_scripture_passage_text Reference.library
       (mkOSISParser Reference.document_without_gen_1_2 Reference.NS)
       [1001003; 1001002; 1001001] None
     = ([1001001; 1001002; 1001003],
        Some (OK [(GENESIS,
                   [(1, [u "1. In the beginning. 3. And God said."])])])).
Proof. repeat split; reflexivity. Qed.

(** C4 (the code departs from it).  In a document whose Genesis
    division has no title element, the search for the title returns
    nothing and both accessors raise [AttributeError] instead of
    returning the empty string. *)
Theorem book_title_absent_raises :
  _get_book_title_element Reference.library (Reference.parser []) GENESIS
  = None
  /\ get_book_title Reference.library (Reference.parser []) GENESIS
     = Raise AttributeError
  /\ get_short_book_title Reference.library (Reference.parser []) GENESIS
     = Raise AttributeError.
Proof. repeat split; reflexivity. Qed.

(** ** Joining the contributions *)

Section Joining.

Variable lib : Library.

(** A nested element appends the contributions of its children as they
    are. *)
Lemma for_grandchildren_contributions handle grandchildren :
  forall paragraph skip id p skip' id',
    for_grandchildren handle grandchildren paragraph skip id
    = OK (p, skip', id') ->
    exists ps,
      contributions (fun g sk _ => handle g sk) grandchildren skip id ps
        skip' id'
      /\ p = paragraph ++ concat ps.
Proof.
  induction grandchildren as [|g rest IH]; simpl;
    intros paragraph skip id p skip' id'.
  - intros [= <- <- <-]. exists []. split; [constructor|].
    now rewrite app_nil_r.
  - destruct (handle g skip) as [[[gp gs] gid]|] eqn:E; simpl; [|discriminate].
    intros H. destruct (IH _ _ _ _ _ _ H) as (ps & Hc & ->).
    exists (gp :: ps). split; [econstructor; eassumption|].
    simpl. now rewrite app_assoc.
Qed.

(** The paragraph element joins the contributions of its children with
    [add_child_paragraph]. *)
Lemma for_children_contributions child_elements verse_ids inc :
  forall paragraph skip id p skip' id',
    for_children lib child_elements verse_ids inc paragraph skip id
    = OK (p, skip', id') ->
    exists ps,
      contributions
        (fun c sk cur => _handle_child_element lib c verse_ids sk cur inc false)
        child_elements skip id ps skip' id'
      /\ p = fold_left add_child_paragraph ps paragraph.
Proof.
  induction child_elements as [|c rest IH]; simpl;
    intros paragraph skip id p skip' id'.
  - intros [= <- <- <-]. exists []. split; [constructor|reflexivity].
  - destruct (_handle_child_element _ _ _ _ _ _ _) as [[[cp cs] cid]|] eqn:E;
      simpl; [|discriminate].
    intros H. destruct (IH _ _ _ _ _ _ H) as (ps & Hc & ->).
    exists (cp :: ps). split; [econstructor; eassumption|reflexivity].
Qed.

Lemma is_generic_inv t :
  is_generic t = true ->
  Str.eqb t (u "verse") = false /\ Str.eqb t (u "rdg") = false
  /\ Str.eqb t (u "w") = false /\ Str.eqb t (u "transChange") = false
  /\ Str.eqb t (u "q") = false /\ Str.eqb t (u "seg") = false
  /\ Str.eqb t (u "note") = false.
Proof.
  unfold is_generic. rewrite negb_true_iff. cbn [existsb].
  rewrite !orb_false_iff. tauto.
Qed.

Lemma add_child_paragraph_nonempty a b :
  a <> [] -> b <> [] ->
  add_child_paragraph a b
  = if endswith (u " ") a then a ++ b else a ++ u " " ++ b.
Proof.
  intros Ha Hb. unfold add_child_paragraph.
  destruct b as [|y b]; [contradiction|].
  destruct a as [|x a]; [contradiction|].
  cbn [length Nat.eqb Nat.ltb Nat.leb andb].
  destruct (endswith (u " ") (x :: a)); cbn [negb];
    [reflexivity|now rewrite <- app_assoc].
Qed.

(** The children of a note that are not verse boundaries, handled
    outside suppression: only the variant readings contribute. *)
Lemma for_grandchildren_of_note verse_ids cur inc grandchildren :
  Forall not_a_verse grandchildren ->
  forall paragraph id,
    for_grandchildren
      (fun g sk => _handle_child_element lib g verse_ids sk cur inc true)
      grandchildren paragraph false id
    = OK (paragraph ++ concat (map reading_text grandchildren), false,
          match grandchildren with [] => id | _ :: _ => cur end).
Proof.
  induction 1 as [|g rest (t & Ht & Hne) Hrest IH]; intros paragraph id.
  - simpl. now rewrite app_nil_r.
  - cbn [for_grandchildren map concat].
    rewrite _handle_child_element_eq. unfold reading_text. rewrite Ht.
    apply str_eqb_neq in Hne. cbn [bind]. rewrite Hne.
    destruct (Str.eqb t (u "rdg")); cbn [bind]; rewrite IH;
      rewrite <- app_assoc; destruct rest; reflexivity.
Qed.

End Joining.

(** C6 (as stated, fails).  A line element with two word children, each
    contributing a non-empty text that ends in no space, handled outside
    suppression as a child element: the contributions are concatenated
    with no space between them. *)
Lemma nested_generic_element_inserts_no_space :
  _handle_child_element Reference.library (Reference.w "In" None)
    [1001001] false 1001001 true false = OK (u "In", false, 1001001)
  /\ _handle_child_element Reference.library (Reference.w "the" None)
       [1001001] false 1001001 true false = OK (u "the", false, 1001001)
  /\ _handle_child_element Reference.library Reference.line_in_the
       [1001001] false 1001001 true false = OK (u "Inthe", false, 1001001)
  /\ u "Inthe" <> u "In the".
Proof. repeat split; try reflexivity. vm_compute. discriminate. Qed.

(** C6 (amended).  For an element with a generic tag, handled outside
    suppression: as a child element it concatenates the contributions
    of its children in document order with nothing between them; as
    the paragraph element it joins them by the space rule, which passes
    over an empty contribution and puts one space before a non-empty
    one when the text so far is non-empty and does not end in a space
    character. *)
Theorem space_only_between_children_of_paragraph
  lib verse_ids inc element t cur :
  _strip_namespace_from_tag (tag element) = OK t ->
  is_generic t = true ->
  (forall p skip' cur',
     _handle_child_element lib element verse_ids false cur inc false
     = OK (p, skip', cur') ->
     exists ps,
       contributions
         (fun g sk _ => _handle_child_element lib g verse_ids sk cur inc false)
         (children element) false cur ps skip' cur'
       /\ p = clean_paragraph (concat ps))
  /\ (forall paragraphs cur',
        _get_paragraph_from_element lib (Some element) verse_ids cur inc
        = OK (paragraphs, cur') ->
        exists ps skip',
          contributions
            (fun c sk id => _handle_child_element lib c verse_ids sk id inc false)
            (children element) false cur ps skip' cur'
          /\ paragraphs
             = [clean_paragraph (fold_left add_child_paragraph ps [])])
  /\ (forall a b,
        add_child_paragraph a [] = a
        /\ add_child_paragraph [] b = b
        /\ (a <> [] -> b <> [] ->
            add_child_paragraph a b
            = if endswith (u " ") a then a ++ b else a ++ u " " ++ b)).
Proof.
  intros Ht Hg.
  destruct (is_generic_inv t Hg) as (Hv & Hr & Hw & Htc & Hq & Hs & Hn).
  split; [|split].
  - intros p skip' cur'. rewrite _handle_child_element_eq, Ht. cbn [bind].
    rewrite Hv, Hr, Hw, Htc, Hq, Hs, Hn. cbn [orb].
    destruct (for_grandchildren _ _ _ _ _) as [[[gp gs] gid]|] eqn:E;
      cbn [bind]; [|discriminate].
    intros [= <- <- <-].
    destruct (for_grandchildren_contributions _ _ _ _ _ _ _ _ E)
      as (ps & Hc & ->).
    exists ps. split; [exact Hc|reflexivity].
  - intros paragraphs cur'. unfold _get_paragraph_from_element.
    destruct (for_children _ _ _ _ _ _ _) as [[[p s] c]|] eqn:E; cbn [bind];
      [|discriminate].
    intros [= <- <-].
    destruct (for_children_contributions lib _ _ _ _ _ _ _ _ _ E)
      as (ps & Hc & ->).
    exists ps, s. split; [exact Hc|reflexivity].
  - intros a b. split; [reflexivity|]. split.
    + unfold add_child_paragraph. destruct b; reflexivity.
    + apply add_child_paragraph_nonempty.
Qed.

Lemma space_only_between_children_of_paragraph_witness :
  (_strip_namespace_from_tag (tag Reference.line_in_the) = OK (u "l")
   /\ is_generic (u "l") = true)
  /\ (forall a b,
        add_child_paragraph a [] = a
        /\ add_child_paragraph [] b = b
        /\ (a <> [] -> b <> [] ->
            add_child_paragraph a b
            = if endswith (u " ") a then a ++ b else a ++ u " " ++ b)).
Proof.
  split; [split; reflexivity|].
  exact (proj2 (proj2 (space_only_between_children_of_paragraph
                         Reference.library [1001001] true
                         Reference.line_in_the (u "l") 1001001
                         eq_refl eq_refl))).
Defined.

(** The same line as the paragraph element: a space is put between the
    two words. *)
Example paragraph_element_inserts_space :
  _get_paragraph_from_element Reference.library (Some Reference.line_in_the)
    [1001001] 1001001 true = OK ([u "In the"], 1001001).
Proof. reflexivity. Qed.

(** C8 (the code departs from it).  A note handled outside
    suppression, with a word, a boundary of the requested verse
    Genesis 1:2 and a variant reading as its direct children: the text
    of the boundary, a direct child that is not a variant reading, is
    in the result.  When the verse is not requested, the boundary
    starts suppression and the variant reading after it is left out. *)
Theorem note_includes_requested_verse_child :
  _handle_child_element Reference.library Reference.note_with_verse
    [1001002] false 1001002 false false
  = OK (u "And the earth was without form.waste", false, 1001002)
  /\ _handle_child_element Reference.library Reference.note_with_verse
       [1001001] false 1001001 false false
     = OK ([], true, 1001001).
Proof. split; reflexivity. Qed.

(** A note that is handled outside suppression, is not itself a direct
    child of a note, and has no verse boundary among its direct
    children contributes the texts of its variant-reading children, in
    document order, and nothing of its other direct children; it leaves
    the traversal state as it is. *)
Lemma note_keeps_only_variant_readings
  lib element verse_ids cur inc :
  _strip_namespace_from_tag (tag element) = OK (u "note") ->
  Forall not_a_verse (children element) ->
  _handle_child_element lib element verse_ids false cur inc false
  = OK (clean_paragraph (concat (map reading_text (children element))),
        false, cur).
Proof.
  intros Ht Hc. rewrite _handle_child_element_eq, Ht. cbn [bind].
  change (Str.eqb (u "note") (u "verse")) with false.
  change (Str.eqb (u "note") (u "rdg")) with false.
  change (Str.eqb (u "note") (u "w")) with false.
  change (Str.eqb (u "note") (u "transChange")) with false.
  change (Str.eqb (u "note") (u "q")) with false.
  change (Str.eqb (u "note") (u "seg")) with false.
  change (Str.eqb (u "note") (u "note")) with true.
  cbn [orb]. rewrite for_grandchildren_of_note by assumption.
  cbn [bind app]. destruct (children element); reflexivity.
Qed.

(** * Further properties of constants.py and parser.py *)

(** ** The book-id table *)

Lemma get_book_by_id_items_In items book_id book :
  get_book_by_id_items items book_id = OK book -> In (book, book_id) items.
Proof.
  induction items as [|[b c] items IH]; simpl; [discriminate|].
  destruct (Str.eqb book_id c) eqn:E.
  - intros [= <-]. apply str_eqb_eq in E. subst. now left.
  - intros H. right. now apply IH.
Qed.

Lemma get_book_by_id_items_error items book_id e :
  get_book_by_id_items items book_id = Raise e -> e = InvalidBookError.
Proof.
  induction items as [|[b c] items IH]; simpl; [now intros [= <-]|].
  destruct (Str.eqb book_id c); [discriminate|exact IH].
Qed.

Lemma BOOK_IDS_In_get book book_id :
  In (book, book_id) BOOK_IDS -> BOOK_IDS_get book = Some book_id.
Proof.
  unfold BOOK_IDS. intros H.
  repeat (destruct H as [H|H]; [injection H as <- <-; reflexivity|]).
  destruct H.
Qed.

Lemma BOOK_IDS_get_by_id book book_id :
  BOOK_IDS_get book = Some book_id -> get_book_by_id book_id = OK book.
Proof.
  destruct book; intros H; vm_compute in H;
    first [discriminate H | injection H as <-; vm_compute; reflexivity].
Qed.

(** X1.  The two directions of the table agree: [get_book_by_id] returns
    a book for a code exactly when [BOOK_IDS] maps that book to that
    code. *)
Theorem book_id_round_trip book book_id :
  get_book_by_id book_id = OK book <-> BOOK_IDS_get book = Some book_id.
Proof.
  split.
  - intros H. apply BOOK_IDS_In_get. now apply get_book_by_id_items_In.
  - apply BOOK_IDS_get_by_id.
Qed.

(** X2.  [get_book_by_id] raises [InvalidBookError], and no other
    exception, exactly when no book of the table has the code. *)
Theorem get_book_by_id_raises_iff_unknown book_id :
  (get_book_by_id book_id = Raise InvalidBookError <->
   forall book, BOOK_IDS_get book <> Some book_id)
  /\ (forall e, get_book_by_id book_id = Raise e -> e = InvalidBookError).
Proof.
  split; [split|].
  - intros H book Hb. apply BOOK_IDS_get_by_id in Hb. congruence.
  - intros H. destruct (get_book_by_id book_id) as [book|e] eqn:E.
    + exfalso. apply (H book). apply BOOK_IDS_In_get.
      now apply get_book_by_id_items_In.
    + f_equal. eapply get_book_by_id_items_error. exact E.
  - intros e. apply get_book_by_id_items_error.
Qed.

(** ** Strings: index, replace and strip *)

Lemma index_None c s : index c s = None <-> ~ In c s.
Proof.
  induction s as [|x s IH]; simpl; [tauto|].
  destruct (N.eqb x c) eqn:E.
  - apply N.eqb_eq in E. split; [discriminate|]. intros H. exfalso. auto.
  - apply N.eqb_neq in E. destruct (index c s); split; try discriminate.
    + intros H. exfalso. apply H. right. apply Decidable.not_not.
      * destruct (in_dec N.eq_dec c s); [now left|now right].
      * intros Hn. apply IH in Hn. discriminate.
    + intros _ [H|H]; [contradiction|]. now apply IH.
    + reflexivity.
Qed.

Lemma index_first c pre post :
  ~ In c pre -> index c (pre ++ c :: post) = Some (length pre).
Proof.
  induction pre as [|x pre IH]; simpl; intros H.
  - now rewrite N.eqb_refl.
  - destruct (N.eqb x c) eqn:E.
    + apply N.eqb_eq in E. exfalso. auto.
    + rewrite IH by auto. reflexivity.
Qed.

Lemma startswith_app old rest : startswith old (old ++ rest) = true.
Proof.
  induction old as [|x old IH]; simpl; [reflexivity|].
  now rewrite N.eqb_refl.
Qed.

Lemma startswith_inv old s :
  startswith old s = true -> exists rest, s = old ++ rest.
Proof.
  revert s; induction old as [|x old IH]; intros s; simpl.
  - intros _. now exists s.
  - destruct s as [|y s]; [discriminate|].
    intros H. apply andb_true_iff in H as [Hx H]. apply N.eqb_eq in Hx.
    destruct (IH _ H) as [rest ->]. exists rest. now subst.
Qed.

Lemma replace_from_skip old new pre rest :
  replace_from old new (pre ++ rest) (length pre) = replace_from old new rest O.
Proof.
  induction pre as [|x pre IH]; simpl; [reflexivity|exact IH].
Qed.

(** A matched occurrence is replaced and the scan goes on after it. *)
Lemma replace_from_match x old new rest :
  replace_from (x :: old) new ((x :: old) ++ rest) O
  = new ++ replace_from (x :: old) new rest O.
Proof.
  cbn [app replace_from]. change (x :: old ++ rest) with ((x :: old) ++ rest).
  rewrite startswith_app.
  replace (length (x :: old) - 1)%nat with (length old)
    by (cbn [length]; lia).
  now rewrite replace_from_skip.
Qed.

Lemma replace_from_no_match old new c s :
  startswith old (c :: s) = false ->
  replace_from old new (c :: s) O = c :: replace_from old new s O.
Proof. intros H. cbn [replace_from]. now rewrite H. Qed.

Lemma replace_from_no_occurrence x old new s :
  ~ occurs (x :: old) s -> replace_from (x :: old) new s O = s.
Proof.
  induction s as [|c s IH]; intros H; [reflexivity|].
  rewrite replace_from_no_match.
  - f_equal. apply IH. intros (pre & post & ->). apply H.
    exists (c :: pre), post. reflexivity.
  - destruct (startswith (x :: old) (c :: s)) eqn:E; [|reflexivity].
    exfalso. apply H. apply startswith_inv in E as [rest E].
    exists [], rest. exact E.
Qed.

(** Replacing one character by nothing removes it everywhere. *)
Lemma replace_char_by_nothing c s :
  replace [c] [] s = filter (fun x => negb (N.eqb x c)) s.
Proof.
  unfold replace. induction s as [|x s IH]; [reflexivity|].
  cbn [replace_from startswith filter length Nat.sub].
  rewrite (N.eqb_sym c x), andb_true_r.
  destruct (N.eqb x c); cbn [negb app]; [exact IH|now rewrite IH].
Qed.

(** Replacing one character by another maps it everywhere. *)
Lemma replace_char_by_char c d s :
  replace [c] [d] s = map (fun x => if N.eqb x c then d else x) s.
Proof.
  unfold replace. induction s as [|x s IH]; [reflexivity|].
  cbn [replace_from startswith map length Nat.sub].
  rewrite (N.eqb_sym c x), andb_true_r.
  destruct (N.eqb x c); cbn [app]; now rewrite IH.
Qed.

Lemma replace_empty_by_nothing s : replace [] [] s = s.
Proof.
  unfold replace. rewrite app_nil_r.
  induction s as [|x s IH]; simpl; [reflexivity|f_equal; exact IH].
Qed.

Lemma filter_absent c s :
  ~ In c s -> filter (fun x => negb (N.eqb x c)) s = s.
Proof.
  induction s as [|x s IH]; simpl; intros H; [reflexivity|].
  destruct (N.eqb x c) eqn:E.
  - apply N.eqb_eq in E. exfalso. auto.
  - simpl. rewrite IH by auto. reflexivity.
Qed.

Lemma startswith_length old s :
  startswith old s = true -> (length old <= length s)%nat.
Proof.
  intros H. apply startswith_inv in H as [rest ->].
  rewrite length_app. lia.
Qed.

(** A replacement by a string that is not longer does not lengthen. *)
Lemma replace_from_length x old new s :
  (length new <= length (x :: old))%nat ->
  forall skip,
    (length (replace_from (x :: old) new s skip) + Nat.min skip (length s)
     <= length s)%nat.
Proof.
  intros Hn. induction s as [|c s IH]; intros skip.
  - simpl. lia.
  - destruct skip as [|k].
    + cbn [replace_from].
      destruct (startswith (x :: old) (c :: s)) eqn:E.
      * apply startswith_length in E. cbn [length] in E, Hn.
        replace (length (x :: old) - 1)%nat with (length old)
          by (cbn [length]; lia).
        rewrite length_app. specialize (IH (length old)).
        rewrite Nat.min_l in IH by lia. cbn [length Nat.min]. lia.
      * specialize (IH O). cbn [length Nat.min] in *. lia.
    + cbn [replace_from length Nat.min]. specialize (IH k). lia.
Qed.

Lemma replace_from_In x old new s c :
  forall skip,
    In c (replace_from (x :: old) new s skip) -> In c s \/ In c new.
Proof.
  induction s as [|y s IH]; intros skip; [simpl; tauto|].
  destruct skip as [|k]; cbn [replace_from].
  - destruct (startswith (x :: old) (y :: s)).
    + intros H. apply in_app_or in H as [H|H]; [now right|].
      apply IH in H as [H|H]; [left; now right|now right].
    + intros [H|H]; [left; now left|].
      apply IH in H as [H|H]; [left; now right|now right].
  - intros H. apply IH in H as [H|H]; [left; now right|now right].
Qed.

Lemma lstrip_suffix s : exists spaces, s = spaces ++ lstrip s.
Proof.
  induction s as [|c s [sp IH]]; [now exists []|].
  simpl. destruct (isspace c).
  - exists (c :: sp). simpl. now rewrite <- IH.
  - now exists [].
Qed.

Lemma lstrip_head s c rest : lstrip s = c :: rest -> isspace c = false.
Proof.
  induction s as [|x s IH]; simpl; [discriminate|].
  destruct (isspace x) eqn:E; [exact IH|]. now intros [= <- _].
Qed.

Lemma rstrip_prefix s : exists spaces, s = rstrip s ++ spaces.
Proof.
  unfold rstrip. destruct (lstrip_suffix (rev s)) as [sp H].
  exists (rev sp). rewrite <- rev_app_distr, <- H. now rewrite rev_involutive.
Qed.

Lemma rstrip_last s init c : rstrip s = init ++ [c] -> isspace c = false.
Proof.
  unfold rstrip. intros H. apply (f_equal (@rev N)) in H.
  rewrite rev_involutive, rev_app_distr in H. simpl in H.
  eapply lstrip_head. exact H.
Qed.

Lemma strip_ends s :
  (forall c rest, strip s = c :: rest -> isspace c = false)
  /\ (forall init c, strip s = init ++ [c] -> isspace c = false).
Proof.
  unfold strip. split.
  - intros c rest H.
    destruct (rstrip_prefix (lstrip s)) as [sp Hsp]. rewrite H in Hsp.
    simpl in Hsp. eapply lstrip_head. exact Hsp.
  - intros init c. apply rstrip_last.
Qed.

Lemma strip_sublist s : exists before after, s = before ++ strip s ++ after.
Proof.
  unfold strip. destruct (lstrip_suffix s) as [b Hb].
  destruct (rstrip_prefix (lstrip s)) as [a Ha].
  exists b, a. now rewrite <- Ha.
Qed.

(** ** Tags *)

(** X3.  For a namespace without braces, the namespace of the tag
    ["{ns}local"] is [ns], and stripping the tag acts on the local name
    alone: it removes from it every occurrence of the namespace and
    every brace.  So a local name without braces in which the namespace
    does not occur is returned as it is. *)
Theorem strip_namespace_of_qualified_tag ns local :
  ~ In LBRACE ns -> ~ In RBRACE ns ->
  _get_namespace (qualified_tag ns local) = OK ns
  /\ _strip_namespace_from_tag (qualified_tag ns local)
     = OK (replace [RBRACE] [] (replace [LBRACE] [] (replace ns [] local)))
  /\ (~ In LBRACE local -> ~ In RBRACE local ->
      ns = [] \/ ~ occurs ns local ->
      _strip_namespace_from_tag (qualified_tag ns local) = OK local).
Proof.
  intros HL HR.
  assert (Hns : _get_namespace (qualified_tag ns local) = OK ns).
  { unfold _get_namespace, qualified_tag. cbn [app index].
    rewrite N.eqb_refl.
    change (N.eqb LBRACE RBRACE) with false. cbv iota.
    rewrite (index_first RBRACE ns local HR).
    unfold slice. replace (S (length ns) - (0 + 1))%nat with (length ns) by lia.
    cbn [Nat.add skipn]. rewrite firstn_app, firstn_all, Nat.sub_diag.
    cbn [firstn]. now rewrite app_nil_r. }
  assert (Hstrip : _strip_namespace_from_tag (qualified_tag ns local)
                   = OK (replace [RBRACE] []
                           (replace [LBRACE] [] (replace ns [] local)))).
  { unfold _strip_namespace_from_tag. rewrite Hns. cbn [bind]. f_equal.
    assert (E : replace ns [] (qualified_tag ns local)
                = LBRACE :: RBRACE :: replace ns [] local).
    { destruct ns as [|n ns'].
      - now rewrite !replace_empty_by_nothing.
      - unfold replace, qualified_tag. cbn [app].
        rewrite replace_from_no_match.
        + change (n :: ns' ++ RBRACE :: local)
            with ((n :: ns') ++ RBRACE :: local).
          rewrite replace_from_match. cbn [app].
          rewrite replace_from_no_match; [reflexivity|].
          cbn [startswith]. destruct (N.eqb n RBRACE) eqn:E; [|reflexivity].
          apply N.eqb_eq in E. exfalso. apply HR. now left.
        + cbn [startswith]. destruct (N.eqb n LBRACE) eqn:E; [|reflexivity].
          apply N.eqb_eq in E. exfalso. apply HL. now left. }
    rewrite E, !replace_char_by_nothing. reflexivity. }
  split; [exact Hns|]. split; [exact Hstrip|].
  intros HLl HRl Hocc. rewrite Hstrip. f_equal.
  assert (E : replace ns [] local = local).
  { destruct ns as [|n ns']; [apply replace_empty_by_nothing|].
    destruct Hocc as [Hocc|Hocc]; [discriminate|].
    now apply replace_from_no_occurrence. }
  rewrite E, !replace_char_by_nothing.
  rewrite (filter_absent LBRACE local HLl). now apply filter_absent.
Qed.

Lemma strip_namespace_of_qualified_tag_witness :
  (~ In LBRACE Reference.NS /\ ~ In RBRACE Reference.NS)
  /\ _get_namespace (qualified_tag Reference.NS (u "verse")) = OK Reference.NS.
Proof.
  assert (HL : ~ In LBRACE Reference.NS) by (apply index_None; reflexivity).
  assert (HR : ~ In RBRACE Reference.NS) by (apply index_None; reflexivity).
  split; [split; assumption|].
  exact (proj1 (strip_namespace_of_qualified_tag Reference.NS (u "verse")
                  HL HR)).
Defined.

(** ** Text *)

(** X5.  A cleaned paragraph holds no paragraph mark, neither begins
    nor ends with a whitespace character, and is not longer than the
    paragraph it was made from. *)
Theorem clean_paragraph_is_clean paragraph :
  ~ In PILCROW (clean_paragraph paragraph)
  /\ (forall c rest, clean_paragraph paragraph = c :: rest -> isspace c = false)
  /\ (forall init c,
        clean_paragraph paragraph = init ++ [c] -> isspace c = false)
  /\ (length (clean_paragraph paragraph) <= length paragraph)%nat.
Proof.
  unfold clean_paragraph.
  set (marked := replace [PILCROW] [] paragraph).
  set (spaced := replace (u "  ") (u " ") marked).
  destruct (strip_sublist spaced) as (before & after & Hsub).
  split; [|split; [|split]].
  - intros Hin.
    assert (H : In PILCROW spaced).
    { rewrite Hsub. apply in_or_app. right. apply in_or_app. now left. }
    apply (replace_from_In 32%N [32%N]) in H as [H|H].
    + unfold marked in H. rewrite replace_char_by_nothing in H.
      apply filter_In in H as [_ H]. rewrite N.eqb_refl in H. discriminate.
    + destruct H as [H|[]]. discriminate H.
  - apply strip_ends.
  - apply strip_ends.
  - apply (f_equal (@length N)) in Hsub. rewrite !length_app in Hsub.
    assert (H1 : (length spaced <= length marked)%nat).
    { pose proof (replace_from_length 32%N [32%N] [32%N] marked
                    ltac:(simpl; lia) O) as H.
      cbn [Nat.min] in H. unfold spaced.
      change (replace (u "  ") (u " ") marked)
        with (replace_from [32%N; 32%N] [32%N] marked O). lia. }
    assert (H2 : (length marked <= length paragraph)%nat).
    { unfold marked. rewrite replace_char_by_nothing. apply filter_length_le. }
    lia.
Qed.

(** X6.  The text and the trailing text taken from an element hold no
    newline and have the length of the element's text and tail. *)
Theorem element_text_has_no_newline element :
  ~ In NEWLINE (_get_element_text_and_tail element)
  /\ length (_get_element_text_and_tail element)
     = (length (match text element with Some t => t | None => [] end)
        + length (match tail element with Some t => t | None => [] end))%nat.
Proof.
  assert (H : forall o : option str,
             match o with
             | Some (c :: t) => replace [NEWLINE] (u " ") (c :: t)
             | _ => []
             end
             = map (fun x => if N.eqb x NEWLINE then 32%N else x)
                 (match o with Some t => t | None => [] end)).
  { intros [[|c t]|]; try reflexivity.
    change (u " ") with [32%N]. apply replace_char_by_char. }
  unfold _get_element_text_and_tail, _get_element_text, _get_element_tail.
  rewrite !H. split.
  - intros Hin. apply in_app_or in Hin.
    destruct Hin as [Hin|Hin]; apply in_map_iff in Hin as (x & Hx & _);
      destruct (N.eqb x NEWLINE) eqn:E;
      try discriminate Hx; apply N.eqb_neq in E; congruence.
  - now rewrite length_app, !length_map.
Qed.

(** ** Dictionaries and the merged result *)

Section Dictionaries.

Variables (K V : Type) (eqb : K -> K -> bool).

Hypothesis eqb_spec : forall x y, eqb x y = true <-> x = y.

Lemma dict_get_set_same (d : dict K V) k v :
  dict_get eqb (dict_set eqb d k v) k = Some v.
Proof.
  assert (R : eqb k k = true) by now apply eqb_spec.
  induction d as [|[k' v'] d IH]; simpl; [now rewrite R|].
  destruct (eqb k' k) eqn:E; simpl; [now rewrite R|].
  now rewrite E.
Qed.

Lemma dict_get_set_other (d : dict K V) k v k2 :
  k2 <> k -> dict_get eqb (dict_set eqb d k v) k2 = dict_get eqb d k2.
Proof.
  intros Hne.
  assert (F : eqb k k2 = false).
  { destruct (eqb k k2) eqn:E; [|reflexivity].
    apply eqb_spec in E. congruence. }
  induction d as [|[k' v'] d IH]; simpl; [now rewrite F|].
  destruct (eqb k' k) eqn:E; simpl.
  - apply eqb_spec in E. subst k'. now rewrite F.
  - destruct (eqb k' k2); [reflexivity|exact IH].
Qed.

End Dictionaries.

Lemma Book_beq_spec x y : Book_beq x y = true <-> x = y.
Proof.
  split; [apply internal_Book_dec_bl|apply internal_Book_dec_lb].
Qed.

Lemma merge_paragraphs_same paragraph_dictionary book chapter paragraphs :
  passage_lookup (merge_paragraphs paragraph_dictionary book chapter paragraphs)
    book chapter
  = Some (paragraphs
          ++ match passage_lookup paragraph_dictionary book chapter with
             | Some later => later
             | None => []
             end).
Proof.
  unfold passage_lookup, merge_paragraphs.
  rewrite (dict_get_set_same _ _ _ Book_beq_spec).
  rewrite (dict_get_set_same _ _ _ Z.eqb_eq).
  destruct (dict_get Book_beq paragraph_dictionary book); reflexivity.
Qed.

Lemma merge_paragraphs_other
  paragraph_dictionary book chapter paragraphs book' chapter' :
  (book', chapter') <> (book, chapter) ->
  passage_lookup (merge_paragraphs paragraph_dictionary book chapter paragraphs)
    book' chapter'
  = passage_lookup paragraph_dictionary book' chapter'.
Proof.
  unfold passage_lookup, merge_paragraphs. intros Hne.
  destruct (Book_eq_dec book' book) as [->|Hb].
  - rewrite (dict_get_set_same _ _ _ Book_beq_spec).
    rewrite (dict_get_set_other _ _ _ Z.eqb_eq) by congruence.
    destruct (dict_get Book_beq paragraph_dictionary book); reflexivity.
  - now rewrite (dict_get_set_other _ _ _ Book_beq_spec).
Qed.

(** X8.  The merge at the end of [_get_paragraphs] puts the paragraphs
    of the current step before those the recursive call produced for
    the same book and chapter, and leaves the paragraphs of every other
    book and chapter as they were. *)
Theorem merge_paragraphs_lookup paragraph_dictionary book chapter paragraphs :
  passage_lookup (merge_paragraphs paragraph_dictionary book chapter paragraphs)
    book chapter
  = Some (paragraphs
          ++ match passage_lookup paragraph_dictionary book chapter with
             | Some later => later
             | None => []
             end)
  /\ (forall book' chapter',
        (book', chapter') <> (book, chapter) ->
        passage_lookup
          (merge_paragraphs paragraph_dictionary book chapter paragraphs)
          book' chapter'
        = passage_lookup paragraph_dictionary book' chapter').
Proof.
  split; [apply merge_paragraphs_same|].
  intros book' chapter'. apply merge_paragraphs_other.
Qed.

Section Results.

Variable lib : Library.

Lemma _get_paragraph_from_element_one paragraph_element verse_ids cur inc ps id :
  _get_paragraph_from_element lib paragraph_element verse_ids cur inc
  = OK (ps, id) ->
  exists paragraph, ps = [paragraph].
Proof.
  unfold _get_paragraph_from_element.
  destruct paragraph_element; [|discriminate].
  destruct (for_children _ _ _ _ _ _ _) as [[[p s] c]|]; cbn [bind];
    [|discriminate].
  intros [= <- _]. eauto.
Qed.

(** X9.  In the mapping [_get_paragraphs] returns, the list of the first
    identifier's book and chapter begins with the one paragraph that
    was extracted for that identifier. *)
Theorem first_paragraph_comes_first
  fuel tree ns v rest inc paragraph_dictionary book chapter verse :
  get_book_chapter_verse lib v = OK (book, chapter, verse) ->
  _get_paragraphs lib fuel tree ns (v :: rest) inc = Some (OK paragraph_dictionary) ->
  exists paragraph id later,
    _get_paragraph_from_element lib
      (find lib tree
         (XPATH_VERSE_PARENT_format (BOOK_IDS_get book) chapter verse) ns)
      (v :: rest) v inc = OK ([paragraph], id)
    /\ passage_lookup paragraph_dictionary book chapter
       = Some (paragraph :: later).
Proof.
  intros Hd. destruct fuel as [|fuel]; [discriminate|].
  cbn [_get_paragraphs]. rewrite Hd.
  destruct (_get_paragraph_from_element _ _ _ _ _) as [[ps id]|e] eqn:E;
    [|discriminate].
  destruct (_get_paragraph_from_element_one _ _ _ _ _ _ E) as [paragraph ->].
  destruct (tuple_index (v :: rest) id) as [i|e]; [|discriminate].
  destruct (if (i + 1 <? length (v :: rest))%nat then _ else _)
    as [[d|e]|]; try discriminate.
  intros [= <-]. exists paragraph, id.
  eexists. split; [reflexivity|].
  rewrite merge_paragraphs_same. reflexivity.
Qed.

(** X7.  [get_verse_text] on a verse identifier is the paragraph
    extracted for that identifier alone: whatever decoding the
    identifier or extracting the paragraph raises is raised, and
    otherwise the one paragraph is returned; the call on the singleton
    never recurses and never fails on its own.  Without a verse
    identifier it raises [InvalidVerseError]. *)
Theorem get_verse_text_is_the_paragraph self verse_id kwargs :
  get_verse_text lib self (Some verse_id) kwargs
  = Some (let* (book, chapter, verse) := get_book_chapter_verse lib verse_id in
          let* (paragraphs, _) :=
            _get_paragraph_from_element lib
              (find lib (tree self)
                 (XPATH_VERSE_PARENT_format (BOOK_IDS_get book) chapter verse)
                 (namespaces self))
              [verse_id] verse_id (kwargs_include_verse_number kwargs) in
          OK (hd [] paragraphs))
  /\ get_verse_text lib self None kwargs = Some (Raise InvalidVerseError).
Proof.
  split; [|reflexivity].
  unfold get_verse_text, _get_verse_text_memoized. cbn [_get_paragraphs].
  destruct (get_book_chapter_verse lib verse_id) as [[[book chapter] verse]|e];
    cbn [bind]; [|reflexivity].
  destruct (_get_paragraph_from_element _ _ _ _ _) as [[ps id]|e] eqn:E;
    cbn [bind]; [|reflexivity].
  assert (Hid : In id [verse_id]).
  { eapply _get_paragraph_from_element_id; [|exact E]. now left. }
  destruct Hid as [<-|[]].
  destruct (_get_paragraph_from_element_one _ _ _ _ _ _ E) as [paragraph ->].
  cbn [tuple_index]. rewrite Z.eqb_refl. reflexivity.
Qed.

End Results.

Lemma first_paragraph_comes_first_witness :
  (Reference.get_book_chapter_verse 1001002 = OK (GENESIS, 1, 2)
   /\ _get_paragraphs Reference.library 2
        (Reference.document [Reference.genesis_title]) Reference.NS
        [1001002; 1001004] false
      = Some (OK [(GENESIS,
                   [(1, [u "And the earth was without form, and void.";
                         u "And God saw the light, that it was good."])])]))
  /\ exists paragraph id later,
       _get_paragraph_from_element Reference.library
         (find Reference.library
            (Reference.document [Reference.genesis_title])
            (XPATH_VERSE_PARENT_format (BOOK_IDS_get GENESIS) 1 2) Reference.NS)
         [1001002; 1001004] 1001002 false = OK ([paragraph], id)
       /\ passage_lookup
            [(GENESIS,
              [(1, [u "And the earth was without form, and void.";
                    u "And God saw the light, that it was good."])])]
            GENESIS 1
          = Some (paragraph :: later).
Proof.
  split; [split; reflexivity|].
  exact (first_paragraph_comes_first Reference.library 2
           (Reference.document [Reference.genesis_title]) Reference.NS
           1001002 [1001004] false _ GENESIS 1 2 eq_refl eq_refl).
Defined.

(** ** What changes the traversal state *)

Section State.

Variable lib : Library.

Lemma verse_free_eq element :
  verse_free element
  = match _strip_namespace_from_tag (tag element) with
    | OK t => negb (Str.eqb t (u "verse"))
    | Raise _ => false
    end
    && forallb verse_free (children element).
Proof. destruct element; reflexivity. Qed.

Lemma for_grandchildren_keeps_state handle cur grandchildren :
  Forall (fun g => forall skip,
            exists p, handle g skip = OK (p, skip, cur)) grandchildren ->
  forall paragraph skip,
    exists p,
      for_grandchildren handle grandchildren paragraph skip cur
      = OK (p, skip, cur).
Proof.
  induction 1 as [|g rest Hg _ IH]; intros paragraph skip; simpl; [eauto|].
  destruct (Hg skip) as [gp ->]. cbn [bind]. apply IH.
Qed.

(** An element without verse boundaries is handled without an exception
    and returns the state it was given. *)
Lemma verse_free_handled verse_ids inc element :
  verse_free element = true ->
  forall skip cur inside_note,
    exists p,
      _handle_child_element lib element verse_ids skip cur inc inside_note
      = OK (p, skip, cur).
Proof.
  induction element as [tg at_ tx tl cs IH] using Element_ind.
  rewrite verse_free_eq. cbn [tag children].
  intros H skip cur inside_note. apply andb_true_iff in H as [Ht Hcs].
  rewrite _handle_child_element_eq. cbn [tag children].
  destruct (_strip_namespace_from_tag tg) as [t|]; [|discriminate].
  cbn [bind]. apply negb_true_iff in Ht. rewrite Ht.
  destruct skip; [eauto|].
  destruct (Str.eqb t (u "rdg")); [eauto|].
  destruct inside_note; [eauto|].
  destruct (_ || _); [eauto|].
  edestruct (for_grandchildren_keeps_state
               (fun g sk => _handle_child_element lib g verse_ids sk cur inc
                              (Str.eqb t (u "note"))) cur cs) as [p Hp].
  - rewrite forallb_forall in Hcs. rewrite Forall_forall in *.
    intros g Hg sk. apply IH; auto.
  - rewrite Hp. cbn [bind]. eauto.
Qed.

Lemma _handle_verse_tag_same_state element verse_ids skip cur :
  same_state (_handle_verse_tag lib element verse_ids skip cur true)
    (_handle_verse_tag lib element verse_ids skip cur false).
Proof.
  unfold _handle_verse_tag.
  destruct (Str.eqb _ _); [simpl; auto|].
  destruct (split DOT _) as [|b [|c [|v [|? ?]]]]; try reflexivity.
  destruct (get_book_by_id b); cbn [bind]; [|reflexivity].
  destruct (int lib c); cbn [bind]; [|reflexivity].
  destruct (int lib v); cbn [bind]; [|reflexivity].
  destruct (get_verse_id lib a a0 a1) as [verse_id|]; cbn [bind];
    [|reflexivity].
  destruct (contains verse_ids verse_id); simpl; auto.
Qed.

Lemma for_grandchildren_same_state handle1 handle2 grandchildren :
  Forall (fun g => forall skip, same_state (handle1 g skip) (handle2 g skip))
    grandchildren ->
  forall p1 p2 skip id,
    same_state (for_grandchildren handle1 grandchildren p1 skip id)
      (for_grandchildren handle2 grandchildren p2 skip id).
Proof.
  induction 1 as [|g rest Hg _ IH]; intros p1 p2 skip id; simpl; [auto|].
  specialize (Hg skip).
  destruct (handle1 g skip) as [[[a1 s1] c1]|e1],
           (handle2 g skip) as [[[a2 s2] c2]|e2]; simpl in Hg;
    try contradiction; cbn [bind].
  - destruct Hg as [-> ->]. apply IH.
  - exact Hg.
Qed.

Lemma _handle_child_element_same_state verse_ids element :
  forall skip cur inside_note,
    same_state
      (_handle_child_element lib element verse_ids skip cur true inside_note)
      (_handle_child_element lib element verse_ids skip cur false inside_note).
Proof.
  induction element as [tg at_ tx tl cs IH] using Element_ind.
  intros skip cur inside_note. rewrite !_handle_child_element_eq.
  cbn [tag children].
  destruct (_strip_namespace_from_tag tg) as [t|]; cbn [bind];
    [|reflexivity].
  destruct (Str.eqb t (u "verse")); [apply _handle_verse_tag_same_state|].
  destruct skip; [simpl; auto|].
  destruct (Str.eqb t (u "rdg")); [simpl; auto|].
  destruct inside_note; [simpl; auto|].
  destruct (_ || _); [simpl; auto|].
  match goal with
  | |- same_state (let* _ := ?r1 in _) (let* _ := ?r2 in _) =>
      assert (H : same_state r1 r2);
      [|destruct r1 as [[[a1 s1] c1]|e1], r2 as [[[a2 s2] c2]|e2];
        simpl in H; try contradiction; cbn [bind]; simpl; auto]
  end.
  apply for_grandchildren_same_state.
  eapply Forall_impl; [|exact IH]. intros g Hg sk. apply Hg.
Qed.

Lemma for_children_same_state verse_ids child_elements :
  forall p1 p2 skip id,
    same_state (for_children lib child_elements verse_ids true p1 skip id)
      (for_children lib child_elements verse_ids false p2 skip id).
Proof.
  induction child_elements as [|c rest IH]; intros p1 p2 skip id; simpl;
    [auto|].
  pose proof (_handle_child_element_same_state verse_ids c skip id false) as H.
  destruct (_handle_child_element lib c verse_ids skip id true false)
    as [[[a1 s1] c1]|e1],
    (_handle_child_element lib c verse_ids skip id false false)
    as [[[a2 s2] c2]|e2]; simpl in H; try contradiction; cbn [bind].
  - destruct H as [-> ->]. apply IH.
  - exact H.
Qed.

End State.

(** X10.  Only verse boundaries change the traversal state: an element
    with no verse boundary at it or below it is handled without an
    exception and returns the skipping flag and the current verse
    identifier it was given. *)
Theorem only_verse_boundaries_change_state
  lib element verse_ids skip cur inc inside_note :
  verse_free element = true ->
  exists p,
    _handle_child_element lib element verse_ids skip cur inc inside_note
    = OK (p, skip, cur).
Proof. intros H. now apply verse_free_handled. Qed.

Lemma only_verse_boundaries_change_state_witness :
  verse_free Reference.note_with_words = true
  /\ exists p,
       _handle_child_element Reference.library Reference.note_with_words
         [1001001] false 1001001 true false
       = OK (p, false, 1001001).
Proof.
  split; [reflexivity|].
  exact (only_verse_boundaries_change_state Reference.library
           Reference.note_with_words [1001001] false 1001001 true false
           eq_refl).
Defined.

(** X11.  The verse-number flag changes the text only.  With the flag
    on and with it off, an element raises the same exception or returns
    the same skipping flag and current verse identifier, and a
    paragraph raises the same exception or returns the same
    identifier. *)
Theorem verse_number_flag_changes_text_only lib verse_ids :
  (forall element skip cur inside_note,
     same_state
       (_handle_child_element lib element verse_ids skip cur true inside_note)
       (_handle_child_element lib element verse_ids skip cur false inside_note))
  /\ (forall paragraph_element cur,
        match
          _get_paragraph_from_element lib paragraph_element verse_ids cur true,
          _get_paragraph_from_element lib paragraph_element verse_ids cur false
        with
        | OK (_, id1), OK (_, id2) => id1 = id2
        | Raise e1, Raise e2 => e1 = e2
        | _, _ => False
        end).
Proof.
  split.
  - intros element. apply _handle_child_element_same_state.
  - intros [element|] cur; [|reflexivity].
    unfold _get_paragraph_from_element.
    pose proof (for_children_same_state lib verse_ids (children element)
                  [] [] false cur) as H.
    destruct (for_children lib (children element) verse_ids true [] false cur)
      as [[[a1 s1] c1]|e1],
      (for_children lib (children element) verse_ids false [] false cur)
      as [[[a2 s2] c2]|e2]; simpl in H; try contradiction; cbn [bind].
    + now destruct H as [_ ->].
    + exact H.
Qed.

(** ** The order of the requested identifiers *)

Lemma sorted_permutation_unique l1 :
  forall l2,
    StronglySorted Z.le l1 -> StronglySorted Z.le l2 -> Permutation l1 l2 ->
    l1 = l2.
Proof.
  induction l1 as [|x l1 IH]; intros l2 H1 H2 P.
  - apply Permutation_nil in P. now subst.
  - destruct l2 as [|y l2];
      [apply Permutation_sym, Permutation_nil in P; discriminate|].
    inversion H1 as [|? ? S1 F1]; inversion H2 as [|? ? S2 F2]; subst.
    rewrite Forall_forall in F1, F2.
    assert (Hx : In x (y :: l2))
      by (eapply Permutation_in; [exact P|now left]).
    assert (Hy : In y (x :: l1))
      by (eapply Permutation_in; [apply Permutation_sym; exact P|now left]).
    assert (E : x = y).
    { destruct Hx as [Hx|Hx]; [now subst|].
      destruct Hy as [Hy|Hy]; [now subst|].
      specialize (F1 _ Hy). specialize (F2 _ Hx). lia. }
    subst y. f_equal. apply IH; try assumption.
    eapply Permutation_cons_inv. exact P.
Qed.

Lemma sort_permutation_eq l1 l2 : Permutation l1 l2 -> sort l1 = sort l2.
Proof.
  intros P. apply sorted_permutation_unique.
  - apply Sorted_StronglySorted; [intros x y z; lia|apply sort_sorted].
  - apply Sorted_StronglySorted; [intros x y z; lia|apply sort_sorted].
  - rewrite <- (sort_permutation l1), <- (sort_permutation l2). exact P.
Qed.

(** X12.  The order in which the caller lists the verse identifiers
    does not matter: two lists that are permutations of each other
    give the same result and leave the same (sorted) list behind. *)
Theorem get_scripture_passage_text_ignores_order lib self l1 l2 kwargs :
  Permutation l1 l2 ->
  get_scripture_passage_text lib self l1 kwargs
  = get_scripture_passage_text lib self l2 kwargs.
Proof.
  intros P. pose proof (sort_permutation_eq l1 l2 P) as E.
  destruct l1 as [|x1 l1], l2 as [|x2 l2].
  - reflexivity.
  - apply Permutation_nil in P. discriminate.
  - apply Permutation_sym, Permutation_nil in P. discriminate.
  - unfold get_scripture_passage_text. now rewrite E.
Qed.

Lemma get_scripture_passage_text_ignores_order_witness :
  Permutation [1001004; 1001001; 1001002] [1001002; 1001004; 1001001]
  /\ get_scripture_passage_text Reference.library
       (Reference.parser [Reference.genesis_title])
       [1001004; 1001001; 1001002] None
     = get_scripture_passage_text Reference.library
         (Reference.parser [Reference.genesis_title])
         [1001002; 1001004; 1001001] None.
Proof.
  assert (P : Permutation [1001004; 1001001; 1001002]
                [1001002; 1001004; 1001001]).
  { apply (perm_trans (l' := [1001004; 1001002; 1001001])).
    - apply perm_skip. apply perm_swap.
    - apply perm_swap. }
  split; [exact P|].
  exact (get_scripture_passage_text_ignores_order Reference.library
           (Reference.parser [Reference.genesis_title])
           [1001004; 1001001; 1001002] [1001002; 1001004; 1001001] None P).
Defined.

(** X16.  [get_scripture_passage_text] always comes to an end: the
    recursion of [_get_paragraphs] on the sorted tuple needs no more
    steps than the tuple has identifiers, so the call returns a mapping
    or raises an exception, for every document and every list. *)
Theorem get_scripture_passage_text_returns_or_raises
  lib self verse_ids kwargs :
  exists r,
    snd (get_scripture_passage_text lib self verse_ids kwargs) = Some r.
Proof.
  destruct verse_ids as [|x l]; [simpl; eauto|].
  unfold get_scripture_passage_text, _get_scripture_passage_text_memoized.
  cbn [snd].
  destruct (_get_paragraphs_enough_fuel lib (tree self) (namespaces self)
              (kwargs_include_verse_number kwargs)
              (length (sort (x :: l))) (sort (x :: l)) (le_n _)) as [r Hr].
  - intros E. pose proof (sort_permutation (x :: l)) as P. rewrite E in P.
    apply Permutation_sym, Permutation_nil in P. discriminate.
  - rewrite Hr. destruct r; eauto.
Qed.

(** ** Paragraphs that clean to nothing *)

Lemma lstrip_spaces s :
  exists spaces,
    s = spaces ++ lstrip s /\ Forall (fun c => isspace c = true) spaces.
Proof.
  induction s as [|c s (sp & IH & F)]; [exists []; split; auto|].
  simpl. destruct (isspace c) eqn:E.
  - exists (c :: sp). split; [simpl; now rewrite <- IH|now constructor].
  - exists []. split; auto.
Qed.

Lemma lstrip_all_spaces s :
  Forall (fun c => isspace c = true) s -> lstrip s = [].
Proof.
  induction 1 as [|c s Hc _ IH]; simpl; [reflexivity|now rewrite Hc].
Qed.

Lemma strip_empty_iff s :
  strip s = [] <-> Forall (fun c => isspace c = true) s.
Proof.
  unfold strip, rstrip. split.
  - intros H. destruct (lstrip_spaces s) as (sp & Hs & F).
    destruct (lstrip_spaces (rev (lstrip s))) as (sp' & Hs' & F').
    apply (f_equal (@rev N)) in H. rewrite rev_involutive in H.
    simpl in H. rewrite H, app_nil_r in Hs'.
    apply (f_equal (@rev N)) in Hs'. rewrite rev_involutive in Hs'.
    rewrite Hs, Hs'. apply Forall_app. split; [exact F|].
    now apply Forall_rev.
  - intros H. rewrite (lstrip_all_spaces s H). reflexivity.
Qed.

(** Collapsing doubled spaces keeps every character that is not a
    space. *)
Lemma collapse_spaces_keeps n :
  forall s c,
    (length s <= n)%nat -> In c s ->
    c = 32%N \/ In c (replace_from [32%N; 32%N] [32%N] s O).
Proof.
  induction n as [|n IH]; intros s c Hlen Hin.
  - destruct s; [destruct Hin|simpl in Hlen; lia].
  - destruct s as [|a s]; [destruct Hin|].
    destruct (startswith [32%N; 32%N] (a :: s)) eqn:E.
    + apply startswith_inv in E as [rest E]. rewrite E in *.
      rewrite replace_from_match.
      cbn [app] in Hin. destruct Hin as [Hin|[Hin|Hin]];
        [now left|now left|].
      destruct (IH rest c) as [H|H]; [cbn [app length] in Hlen; lia|exact Hin
                                     |now left|].
      right. apply in_or_app. now right.
    + rewrite replace_from_no_match by exact E.
      destruct Hin as [Hin|Hin]; [subst a; right; now left|].
      destruct (IH s c) as [H|H]; [simpl in Hlen; lia|exact Hin|now left|].
      right. now right.
Qed.

(** X17.  A paragraph cleans to the empty string exactly when it
    consists of whitespace characters and paragraph marks only. *)
Theorem clean_paragraph_empty_iff paragraph :
  clean_paragraph paragraph = []
  <-> Forall (fun c => isspace c = true \/ c = PILCROW) paragraph.
Proof.
  unfold clean_paragraph. rewrite strip_empty_iff.
  rewrite replace_char_by_nothing.
  change (replace (u "  ") (u " ")) with
    (fun s => replace_from [32%N; 32%N] [32%N] s O). cbv beta.
  rewrite !Forall_forall. split.
  - intros H c Hc. destruct (N.eqb c PILCROW) eqn:E.
    + right. now apply N.eqb_eq.
    + left.
      assert (Hf : In c (filter (fun x => negb (N.eqb x PILCROW)) paragraph))
        by (apply filter_In; split; [exact Hc|now rewrite E]).
      destruct (collapse_spaces_keeps _ _ c (le_n _) Hf) as [Hk|Hk];
        [subst c; reflexivity|now apply H].
  - intros H c Hc. apply replace_from_In in Hc as [Hc|Hc].
    + apply filter_In in Hc as [Hc Hn].
      destruct (H c Hc) as [Hs|Hs]; [exact Hs|]. subst c.
      rewrite N.eqb_refl in Hn. discriminate.
    + destruct Hc as [Hc|[]]. subst c. reflexivity.
Qed.
